(** * MercerChat backend (app/main.py): ingestion pipeline and answer enrichment

    A shallow embedding of [mercerchatbotbackend2/app/main.py].  Python values
    become Rocq data, the module-level configuration and every external
    collaborator (object store, OCR engine, PDF renderer, HTTP client, clock,
    random source) become fields of an environment record, and the effectful
    functions run in a small state-and-exception monad over a world made of
    the bucket, the local files and the history of external interactions. *)

From Stdlib Require Import ZArith String Ascii PrimFloat SpecFloat FloatOps Uint63.
From Stdlib.Strings Require Import Byte.
From stdpp Require Import gmap strings list pretty.
Set Warnings "-register-all,-clear-no-such-hyp".

Local Open Scope Z_scope.
Local Open Scope string_scope.

(** ** Python values *)

(** JSON-like values, as [resp.json()] produces them and as the payload sent
    downstream is built. *)
Inductive JVal :=
| JNull
| JBool (b : bool)
| JNum (n : Z)
| JStr (s : string)
| JList (l : list JVal)
| JDict (d : gmap string JVal).

(** Python truthiness, used by [x or y], [if x:] and [x and y]. *)
Definition str_truthy (s : string) : bool :=
  match s with "" => false | _ => true end.

Definition truthy (v : JVal) : bool :=
  match v with
  | JNull => false
  | JBool b => b
  | JNum n => negb (n =? 0)%Z
  | JStr s => str_truthy s
  | JList l => match l with [] => false | _ => true end
  | JDict d => negb (bool_decide (d = ∅))
  end.

(** [x or default] on strings. *)
Definition str_or (s default : string) : string :=
  if str_truthy s then s else default.

(** Exceptions.  Everything raised in this module derives from [Exception]:
    FastAPI's [HTTPException], the [RuntimeError]s the module raises itself,
    and whatever the libraries raise ([LibError], carrying [str(e)]). *)
Inductive Exn :=
| HTTPException (status_code : Z) (detail : string)
| RuntimeError (msg : string)
| LibError (msg : string).

(** [str(e)], as the f-strings interpolate it. *)
Definition exn_str (e : Exn) : string :=
  match e with
  | HTTPException c d => pretty c +:+ ": " +:+ d
  | RuntimeError m => m
  | LibError m => m
  end.

Inductive Outcome (A : Type) :=
| Ok (a : A)
| Raise (e : Exn).
Arguments Ok {A} a.
Arguments Raise {A} e.

Definition is_ok {A} (r : Outcome A) : bool :=
  match r with Ok _ => true | Raise _ => false end.

Definition ok_value {A} (r : Outcome A) : option A :=
  match r with Ok a => Some a | Raise _ => None end.

(** ** Images *)

(** A PIL image, kept symbolically: a decoded raster, or the result of
    [convert] or [resize] on another image. *)
Inductive Image :=
| Raster (mode : string) (w h : Z) (page_id : N)
| Converted (mode : string) (im : Image)
| Resized (w h : Z) (im : Image).

Fixpoint im_mode (im : Image) : string :=
  match im with
  | Raster m _ _ _ => m
  | Converted m _ => m
  | Resized _ _ im' => im_mode im'
  end.

Fixpoint im_size (im : Image) : Z * Z :=
  match im with
  | Raster _ w h _ => (w, h)
  | Converted _ im' => im_size im'
  | Resized w h _ => (w, h)
  end.

(** ** Floating point, as [1600.0 / max(w, h)] and [int(w * scale)] use it *)

(** [float(n)] for a pixel count (exact below 2^53). *)
Definition float_of_Z (n : Z) : float := PrimFloat.of_uint63 (Uint63.of_Z n).

(** [int(x)]: truncation toward zero; [None] where Python raises (inf, nan). *)
Definition int_of_float (x : float) : option Z :=
  match Prim2SF x with
  | S754_zero _ => Some 0
  | S754_finite s m e =>
      let v := (if 0 <=? e then Z.pos m * 2 ^ e else Z.pos m / 2 ^ (- e))%Z in
      Some (if s then (- v)%Z else v)
  | S754_infinity _ => None
  | S754_nan => None
  end.

(** ** Artifact keys and document identifiers *)

Definition hex_char (d : N) : ascii :=
  match d with
  | 0 => "0" | 1 => "1" | 2 => "2" | 3 => "3" | 4 => "4" | 5 => "5"
  | 6 => "6" | 7 => "7" | 8 => "8" | 9 => "9" | 10 => "a" | 11 => "b"
  | 12 => "c" | 13 => "d" | 14 => "e" | _ => "f"
  end%N%char.

(** The [n] low hexadecimal digits of [v], most significant first. *)
Fixpoint hex_digits (n : nat) (v : N) (acc : string) : string :=
  match n with
  | O => acc
  | S n' => hex_digits n' (v / 16)%N (String (hex_char (v mod 16)%N) acc)
  end.

(** [uuid.UUID.hex]: the 128-bit value as 32 hexadecimal digits. *)
Definition uuid_hex (u : N) : string := hex_digits 32 u "".

(** [s[:n]]. *)
Fixpoint str_take (n : nat) (s : string) : string :=
  match n, s with
  | S n', String c s' => String c (str_take n' s')
  | _, _ => ""
  end.

(** [make_doc_id]: [uuid.uuid4().hex[:16]], from the random 128-bit value. *)
Definition make_doc_id (u : N) : string := str_take 16 (uuid_hex u).

(** [str(i)] for a page number. *)
Definition str_of_nat (i : nat) : string := pretty i.

(** [f"pdfs/{conv}/{doc_id}.pdf"] *)
Definition pdf_key (conv doc_id : string) : string :=
  "pdfs/" +:+ conv +:+ "/" +:+ doc_id +:+ ".pdf".

(** [f"pages/{conv}/{doc_id}/page_{i}.png"] *)
Definition img_key (conv doc_id : string) (i : nat) : string :=
  "pages/" +:+ conv +:+ "/" +:+ doc_id +:+ "/page_" +:+ str_of_nat i +:+ ".png".

(** [f"text/{conv}/{doc_id}/page_{i}.txt"] *)
Definition txt_key (conv doc_id : string) (i : nat) : string :=
  "text/" +:+ conv +:+ "/" +:+ doc_id +:+ "/page_" +:+ str_of_nat i +:+ ".txt".

(** The three kinds of artifact, and the key of an artifact from
    [(kind, conversation_id, doc_id, page_number)]; the page number is not
    used for the original document. *)
Inductive Kind := KPdf | KPageImage | KPageText.

Definition artifact_key (k : Kind) (conv doc_id : string) (page : nat) : string :=
  match k with
  | KPdf => pdf_key conv doc_id
  | KPageImage => img_key conv doc_id page
  | KPageText => txt_key conv doc_id page
  end.

(** ** The world: bucket, local files, history of external interactions *)

Record Blob := {
  blob_data : list byte;
  blob_content_type : string;
  blob_metadata : option (gmap string string);
}.

(** The HTTP response object of [requests.post], by what its two methods do:
    [raise_for_status()] raises or not, [json()] parses the body or raises. *)
Record Response := {
  raise_for_status : option Exn;
  json : Outcome JVal;
}.

(** One constructor per [_log] call site, carrying the interpolated values. *)
Inductive LogMsg :=
| LogUploadOk (key content_type : string) (size : nat) (signed : bool)
| LogPdfRead (name : string) (size : nat) (conv doc_id : string)
| LogRenderOk (pages : nat)
| LogOcrWarn (page : nat) (e : Exn)
| LogTextUploadWarn (page : nat) (key : string) (e : Exn)
| LogGpuReq (url : string) (payload : gmap string JVal)
| LogSignWarn (k : JVal) (e : Exn)
| LogMetaWarn (k : JVal) (e : Exn)
| LogPostProcessWarn (e : Exn)
| LogGpuResp (body : JVal).

Inductive Event :=
| EvUuid (u : N)
| EvOpen (path : string)
| EvTempFile (path : string)
| EvRemove (path : string)
| EvUpload (key : string) (data : list byte) (content_type : string)
    (metadata : option (gmap string string)) (fault : option Exn)
| EvSign (key : string) (r : Outcome string)
| EvReload (key : string) (r : Outcome (option (gmap string string)))
| EvRender (r : Outcome (list Image))
| EvTesseract (im : Image) (r : Outcome string)
| EvPost (url : string) (payload : gmap string JVal) (headers : gmap string string)
    (timeout : Z) (r : Outcome Response)
| EvLog (m : LogMsg).

Record World := {
  bucket : gmap string Blob;
  files : gmap string (list byte);
  history : list Event;
}.

(** The module-level configuration and the external collaborators.  What a
    collaborator answers may depend on everything that happened before (the
    history), so that the same call can fail once and succeed later. *)
Record Env := {
  OCR_LANG : string;
  TESS_VERSION : string;
  DEBUG_LOG : bool;
  SIGNED_URL_TTL_MIN : Z;
  GPU_BACKEND_URL : option string;
  GPU_BEARER_TOKEN : string;
  GPU_TIMEOUT_SEC : Z;
  uuid4 : list Event → N;
  utcnow_isoformat : list Event → string;
  open_fault : list Event → string → option Exn;
  tempfile_fault : list Event → string → option Exn;
  tempfile_name : list Event → string → string;
  path_suffix : string → string;
  convert_from_bytes : list Event → list byte → Z → Outcome (list Image);
  png_save : Image → gmap string string → list byte;
  upload_fault : list Event → string → option Exn;
  signed_url : list Event → string → Z → Outcome string;
  reload_fault : list Event → string → option Exn;
  image_to_string : list Event → Image → string → string → Outcome string;
  requests_post :
    list Event → string → gmap string JVal → gmap string string → Z → Outcome Response;
}.

(** ** The monad: state passing with Python exceptions *)

Definition M (A : Type) : Type := World → Outcome A * World.

#[export] Instance M_ret : MRet M := λ A a w, (Ok a, w).

#[export] Instance M_bind : MBind M := λ A B f m w,
  match m w with
  | (Ok a, w') => f a w'
  | (Raise e, w') => (Raise e, w')
  end.

Definition raise {A} (e : Exn) : M A := λ w, (Raise e, w).

(** [try: body except Exception as e: handler]; what [body] did to the world
    before raising stays done. *)
Definition try_except {A} (body : M A) (handler : Exn → M A) : M A := λ w,
  match body w with
  | (Ok a, w') => (Ok a, w')
  | (Raise e, w') => handler e w'
  end.

(** [try: body finally: cleanup], for a cleanup that swallows its own errors. *)
Definition try_finally {A} (body : M A) (cleanup : M unit) : M A := λ w,
  match body w with
  | (r, w') => (r, (cleanup w').2)
  end.

Definition emit (ev : Event) : M unit := λ w,
  (Ok tt, {| bucket := bucket w; files := files w; history := history w ++ [ev] |}).

(** An external call whose answer the environment gives from the history. *)
Definition ask_env {A} (oracle : list Event → A) : M A := λ w, (Ok (oracle (history w)), w).

Definition lift {A} (r : Outcome A) : M A := λ w, (r, w).

Definition set_bucket (b : gmap string Blob) : M unit := λ w,
  (Ok tt, {| bucket := b; files := files w; history := history w |}).

Definition set_files (f : gmap string (list byte)) : M unit := λ w,
  (Ok tt, {| bucket := bucket w; files := f; history := history w |}).

Definition get_world : M World := λ w, (Ok w, w).

(** ** Helpers *)

Section Backend.
Context (env : Env).

(** [_log]: prints only when [DEBUG_LOG] is on. *)
Definition _log (m : LogMsg) : M unit :=
  if DEBUG_LOG env then emit (EvLog m) else mret tt.

Definition _now_iso : M string :=
  t ← ask_env (utcnow_isoformat env); mret (t +:+ "Z").

(** [txt.replace("\r\n", "\n")] *)
Fixpoint replace_crlf (s : string) : string :=
  match s with
  | "" => ""
  | String c s' =>
      match c, s' with
      | "013"%char, String "010"%char s'' => String "010"%char (replace_crlf s'')
      | _, _ => String c (replace_crlf s')
      end
  end.

(** [txt.replace("\r", "\n")] *)
Fixpoint replace_cr (s : string) : string :=
  match s with
  | "" => ""
  | String c s' =>
      String (if Ascii.eqb c "013"%char then "010"%char else c) (replace_cr s')
  end.

(** The ASCII characters [str.strip()] removes. *)
Definition py_isspace (c : ascii) : bool :=
  let n := nat_of_ascii c in
  ((9 <=? n) && (n <=? 13) || (28 <=? n) && (n <=? 32))%nat.

Fixpoint lstrip_by (p : ascii → bool) (s : string) : string :=
  match s with
  | "" => ""
  | String c s' => if p c then lstrip_by p s' else s
  end.

Definition rstrip_by (p : ascii → bool) (s : string) : string :=
  String.rev (lstrip_by p (String.rev s)).

Definition strip (s : string) : string := rstrip_by py_isspace (lstrip_by py_isspace s).

(** [ocr_image_to_text], lines 88-93: conversion to RGB and the light
    upscaling of small scans.  [1600.0 / max(w, h)] raises on a zero size. *)
Definition ocr_preprocess (img : Image) : Outcome Image :=
  let im := Converted "RGB" img in
  let '(w, h) := im_size im in
  if (Z.max w h <? 1600)%Z then
    if (Z.max w h =? 0)%Z then Raise (LibError "float division by zero")
    else
      let scale := PrimFloat.div 1600%float (float_of_Z (Z.max w h)) in
      match int_of_float (PrimFloat.mul (float_of_Z w) scale),
            int_of_float (PrimFloat.mul (float_of_Z h) scale) with
      | Some w', Some h' => Ok (Resized w' h' im)
      | _, _ => Raise (LibError "cannot convert float to integer")
      end
  else Ok im.

(** [pytesseract.image_to_string(im, lang=..., config=...)] *)
Definition tesseract (im : Image) (lang config : string) : M string :=
  r ← ask_env (λ h, image_to_string env h im lang config);
  emit (EvTesseract im r);;
  lift r.

Definition ocr_image_to_text (img : Image) : M string :=
  im ← lift (ocr_preprocess img);
  let config := "--psm 4" in
  try_except
    (txt ← tesseract im (OCR_LANG env) config;
     mret (strip (replace_cr (replace_crlf txt))))
    (λ e, raise (RuntimeError ("OCR failed: " +:+ exn_str e))).

(** [png_bytes_with_meta]: the PNG encoding of the page with its text chunks. *)
Definition png_bytes_with_meta (img : Image) (meta : gmap string string) : list byte :=
  png_save env img meta.

(** [pil_images_from_pdf_bytes] *)
Definition pil_images_from_pdf_bytes (pdf_bytes : list byte) (dpi : Z) : M (list Image) :=
  r ← ask_env (λ h, convert_from_bytes env h pdf_bytes dpi);
  emit (EvRender r);;
  lift r.

(** ** Blob store gateway *)

(** [blob.upload_from_string(data, content_type=...)]: the object is stored
    unless the store or the network fails. *)
Definition upload_from_string (key : string) (data : list byte) (content_type : string)
    (metadata : option (gmap string string)) : M unit :=
  f ← ask_env (λ h, upload_fault env h key);
  emit (EvUpload key data content_type metadata f);;
  match f with
  | Some e => raise e
  | None =>
      w ← get_world;
      set_bucket (<[key := {| blob_data := data; blob_content_type := content_type;
                               blob_metadata := metadata |}]> (bucket w))
  end.

(** [blob.generate_signed_url(expiration=timedelta(minutes=TTL), method="GET")] *)
Definition generate_signed_url (key : string) : M string :=
  r ← ask_env (λ h, signed_url env h key (SIGNED_URL_TTL_MIN env));
  emit (EvSign key r);;
  lift r.

(** [blob.reload()] followed by reading [blob.metadata]. *)
Definition blob_reload (key : string) : M (option (gmap string string)) :=
  f ← ask_env (λ h, reload_fault env h key);
  w ← get_world;
  let r := match f with
           | Some e => Raise e
           | None =>
               match bucket w !! key with
               | Some b => Ok (blob_metadata b)
               | None => Raise (LibError ("404 No such object: " +:+ key))
               end
           end in
  emit (EvReload key r);;
  lift r.

Definition gcs_put_and_sign (key : string) (data : list byte) (content_type : string)
    (metadata : option (gmap string string)) : M string :=
  let blob_meta :=
    match metadata with
    | Some m => if bool_decide (m = ∅) then None else Some m
    | None => None
    end in
  upload_from_string key data content_type blob_meta;;
  signed ← generate_signed_url key;
  _log (LogUploadOk key content_type (length data) (str_truthy signed));;
  mret signed.

Definition gcs_sign_only (key : string) : M string := generate_signed_url key.

(** ** Ingestion *)

(** The dictionary [process_pdf_to_gcs] returns. *)
Record IngestResult := {
  res_conversation_id : string;
  res_doc_id : string;
  res_pdf_key : string;
  res_pages_count : nat;
}.

(** [open(file_path, "rb").read()] *)
Definition read_file (file_path : string) : M (list byte) :=
  f ← ask_env (λ h, open_fault env h file_path);
  emit (EvOpen file_path);;
  match f with
  | Some e => raise e
  | None =>
      w ← get_world;
      match files w !! file_path with
      | Some raw => mret raw
      | None => raise (LibError ("[Errno 2] No such file or directory: " +:+ file_path))
      end
  end.

Definition pdf_meta (conv doc_id safe_name uploaded_at : string) : gmap string string :=
  {[ "original_filename" := safe_name; "conversation_id" := conv;
     "doc_id" := doc_id; "uploaded_at" := uploaded_at ]}.

Definition page_meta (conv doc_id pdf_key safe_name : string) (i : nat)
    : gmap string string :=
  {[ "conversation_id" := conv; "doc_id" := doc_id; "page_number" := str_of_nat i;
     "source_pdf_key" := pdf_key; "original_filename" := safe_name ]}.

Definition text_meta (meta : gmap string string) (img_key ocr_at : string)
    : gmap string string :=
  <["content_type" := "text/plain; charset=utf-8"]>
  (<["ocr_at" := ocr_at]>
  (<["ocr_lang" := OCR_LANG env]>
  (<["ocr_version" := TESS_VERSION env]>
  (<["ocr_engine" := "tesseract"]>
  (<["source_image_key" := img_key]> meta))))).

(** The body of the [for i, img in enumerate(pil_pages, start=1)] loop. *)
Definition process_page (conv doc_id pdf_key safe_name : string) (i : nat) (img : Image)
    : M unit :=
  let meta := page_meta conv doc_id pdf_key safe_name i in
  let png_bytes := png_bytes_with_meta img meta in
  let img_key := img_key conv doc_id i in
  gcs_put_and_sign img_key png_bytes "image/png" (Some meta);;
  ocr_text ← try_except (ocr_image_to_text img)
                (λ e, _log (LogOcrWarn i e);; mret "");
  ocr_at ← _now_iso;
  let txt_meta := text_meta meta img_key ocr_at in
  let txt_key := txt_key conv doc_id i in
  try_except
    (gcs_put_and_sign txt_key (list_byte_of_string (str_or ocr_text ""))
       "text/plain; charset=utf-8" (Some txt_meta);;
     mret tt)
    (λ e, _log (LogTextUploadWarn i txt_key e)).

Fixpoint process_pages (conv doc_id pdf_key safe_name : string) (i : nat)
    (pil_pages : list Image) : M unit :=
  match pil_pages with
  | [] => mret tt
  | img :: rest =>
      process_page conv doc_id pdf_key safe_name i img;;
      process_pages conv doc_id pdf_key safe_name (S i) rest
  end.

Definition process_pdf_to_gcs (conversation_id file_path original_filename : string)
    : M IngestResult :=
  let conv := str_or conversation_id "no-conv" in
  u ← ask_env (uuid4 env);
  emit (EvUuid u);;
  let doc_id := make_doc_id u in
  let safe_name := original_filename in
  raw ← try_except (read_file file_path)
          (λ e, raise (HTTPException 400 ("Could not read file: " +:+ exn_str e)));
  match raw with
  | [] => raise (HTTPException 400 "File is empty.")
  | _ =>
      _log (LogPdfRead safe_name (length raw) conv doc_id);;
      let pdf_key := pdf_key conv doc_id in
      uploaded_at ← _now_iso;
      gcs_put_and_sign pdf_key raw "application/pdf"
        (Some (pdf_meta conv doc_id safe_name uploaded_at));;
      pil_pages ← pil_images_from_pdf_bytes raw 400;
      _log (LogRenderOk (length pil_pages));;
      process_pages conv doc_id pdf_key safe_name 1 pil_pages;;
      mret {| res_conversation_id := conv; res_doc_id := doc_id;
              res_pdf_key := pdf_key; res_pages_count := length pil_pages |}
  end.

(** ** Answer enrichment *)

(** [isinstance(k, str) and k] *)
Definition page_key_of (k : JVal) : option string :=
  match k with
  | JStr s => if str_truthy s then Some s else None
  | _ => None
  end.

(** [type(v).__name__], as the [AttributeError] message spells it. *)
Definition py_type_name (v : JVal) : string :=
  match v with
  | JNull => "NoneType"
  | JBool _ => "bool"
  | JNum _ => "int"
  | JStr _ => "str"
  | JList _ => "list"
  | JDict _ => "dict"
  end.

Definition jstr_opt (o : option string) : JVal :=
  match o with Some s => JStr s | None => JNull end.

(** The record appended to [page_info_list]. *)
Definition page_info (k : string) (metadata : option (gmap string string)) : JVal :=
  let meta := default ∅ metadata in
  JDict {[ "page_key" := JStr k;
           "pdf_name" := jstr_opt (meta !! "original_filename");
           "page_number" := jstr_opt (meta !! "page_number") ]}.

(** First loop over [pages_used]: signed URLs. *)
Fixpoint sign_pages (pages_used : list JVal) (signed_urls : list JVal) : M (list JVal) :=
  match pages_used with
  | [] => mret signed_urls
  | k :: rest =>
      signed_urls' ←
        try_except
          (match page_key_of k with
           | Some key => u ← gcs_sign_only key; mret (signed_urls ++ [JStr u])%list
           | None => mret signed_urls
           end)
          (λ e, _log (LogSignWarn k e);; mret signed_urls);
      sign_pages rest signed_urls'
  end.

(** Second loop over [pages_used]: stored metadata. *)
Fixpoint fetch_page_info (pages_used : list JVal) (page_info_list : list JVal)
    : M (list JVal) :=
  match pages_used with
  | [] => mret page_info_list
  | k :: rest =>
      page_info_list' ←
        try_except
          (match page_key_of k with
           | Some key =>
               metadata ← blob_reload key;
               mret (page_info_list ++ [page_info key metadata])%list
           | None => mret page_info_list
           end)
          (λ e, _log (LogMetaWarn k e);; mret page_info_list);
      fetch_page_info rest page_info_list'
  end.

(** Lines 241-272: the post-processing of [pages_used], inside its own
    [try]/[except]. *)
Definition attach_pages (body : JVal) : M JVal :=
  try_except
    (match body with
     | JDict d =>
         let pages_used :=
           match d !! "pages_used" with
           | Some v => if truthy v then v else JList []
           | None => JList []
           end in
         match pages_used with
         | JList ks =>
             signed_urls ← sign_pages ks [];
             let d1 := <["page_image_urls" := JList signed_urls]> d in
             page_info_list ← fetch_page_info ks [];
             mret (JDict (<["page_info" := JList page_info_list]> d1))
         | _ => mret body
         end
     | _ => raise (LibError ("'" +:+ py_type_name body +:+ "' object has no attribute 'get'"))
     end)
    (λ e, _log (LogPostProcessWarn e);; mret body).

Definition url_configured (u : option string) : bool :=
  match u with Some s => str_truthy s | None => false end.

Definition stub_answer (conversation_id : string) : JVal :=
  JDict {[ "ai" := JStr "(stub) GPU_BACKEND_URL not configured.";
           "conversation_id" := JStr conversation_id ]}.

Definition gpu_payload (conversation_id human : string) (doc_id : option string)
    : gmap string JVal :=
  let payload : gmap string JVal :=
    {[ "conversation_id" := JStr conversation_id; "human" := JStr human ]} in
  match doc_id with
  | Some d => if str_truthy d then <["doc_id" := JStr d]> payload else payload
  | None => payload
  end.

Definition gpu_headers : gmap string string :=
  let headers : gmap string string := {[ "Content-Type" := "application/json" ]} in
  if str_truthy (GPU_BEARER_TOKEN env)
  then <["Authorization" := "Bearer " +:+ GPU_BEARER_TOKEN env]> headers
  else headers.

Definition is_slash (c : ascii) : bool := Ascii.eqb c "/"%char.

Definition gpu_url : string :=
  rstrip_by is_slash (default "" (GPU_BACKEND_URL env)) +:+ "/ingest-and-answer".

Definition post (url : string) (payload : gmap string JVal) (headers : gmap string string)
    (timeout : Z) : M Response :=
  r ← ask_env (λ h, requests_post env h url payload headers timeout);
  emit (EvPost url payload headers timeout r);;
  lift r.

Definition call_gpu_backend (conversation_id human : string) (doc_id : option string)
    : M JVal :=
  if negb (url_configured (GPU_BACKEND_URL env)) then mret (stub_answer conversation_id)
  else
    let url := gpu_url in
    let payload := gpu_payload conversation_id human doc_id in
    let headers := gpu_headers in
    _log (LogGpuReq url payload);;
    try_except
      (resp ← post url payload headers (GPU_TIMEOUT_SEC env);
       match raise_for_status resp with Some e => raise e | None => mret tt end;;
       body ← lift (json resp);
       body' ← attach_pages body;
       _log (LogGpuResp body');;
       mret body')
      (λ e, raise (HTTPException 502 ("GPU backend error: " +:+ exn_str e))).

(** ** The /chat route *)

Record UploadFile := {
  filename : option string;
  content : list byte;
}.

(** [tempfile.NamedTemporaryFile(delete=False, suffix=suffix)] and
    [tmp.write(content)]. *)
Definition write_temp_file (suffix : string) (data : list byte) : M string :=
  f ← ask_env (λ h, tempfile_fault env h suffix);
  match f with
  | Some e => raise e
  | None =>
      tmp_path ← ask_env (λ h, tempfile_name env h suffix);
      emit (EvTempFile tmp_path);;
      w ← get_world;
      set_files (<[tmp_path := data]> (files w));;
      mret tmp_path
  end.

(** [os.remove(tmp_path)] with its errors swallowed. *)
Definition remove_file (tmp_path : string) : M unit :=
  emit (EvRemove tmp_path);;
  w ← get_world;
  set_files (delete tmp_path (files w)).

Definition chat (human conversation_id : string) (pdf_file : option UploadFile)
    (original_filename : string) : M JVal :=
  doc_id ←
    match pdf_file with
    | Some f =>
        let suffix :=
          match filename f with
          | Some n => if str_truthy n then path_suffix env n else ".pdf"
          | None => ".pdf"
          end in
        tmp_path ← write_temp_file suffix (content f);
        try_finally
          (result ← process_pdf_to_gcs conversation_id tmp_path original_filename;
           mret (Some (res_doc_id result)))
          (remove_file tmp_path)
    | None => mret None
    end;
  call_gpu_backend conversation_id human doc_id.

End Backend.

(** ** Module-level configuration: the allowed origins *)

(** [s.split(sep)] for a one-character separator: the pieces between the
    separators, in order; always at least one piece. *)
Fixpoint split_on (sep : ascii) (s : string) : list string :=
  match s with
  | "" => [""]
  | String c s' =>
      if Ascii.eqb c sep then "" :: split_on sep s'
      else
        match split_on sep s' with
        | piece :: pieces => String c piece :: pieces
        | [] => [String c ""]
        end
  end.

(** The defaults for local development. *)
Definition default_origins : list string :=
  ["http://localhost:3000"; "http://127.0.0.1:3000"].

(** [CORS_ORIGINS], from the value of [FRONTEND_ORIGINS] ("" when unset). *)
Definition cors_origins (origins_env : string) : list string :=
  if str_truthy (strip origins_env)
  then omap (λ o, if str_truthy (strip o) then Some (strip o) else None)
         (split_on ","%char origins_env)
  else default_origins.

(** * Observations and scenarios

    What the properties below are stated with: views of a stretch of history
    (uploads, signing and metadata requests), the shapes of the uploads of a
    page loop, and concrete deployments on which the model is run. *)

Local Open Scope list_scope.

Abbreviation chars := list_ascii_of_string.

(** A string with no path separator in it. *)
Definition slash_free (s : string) : Prop := "/"%char ∉ chars s.

(** The world after [evs] more events, bucket and files untouched. *)
Definition extend (w : World) (evs : list Event) : World :=
  {| bucket := bucket w; files := files w; history := history w ++ evs |}.

(** What [_log] adds to the history. *)
Definition logged (env : Env) (m : LogMsg) : list Event :=
  if DEBUG_LOG env then [EvLog m] else [].

(** The size [ocr_preprocess] asks [resize] for along a dimension of [n]
    pixels when the larger dimension is [m]. *)
Definition upscaled (n m : Z) : option Z :=
  int_of_float (PrimFloat.mul (float_of_Z n) (PrimFloat.div 1600%float (float_of_Z m))).

(** The larger dimension [m] is brought to 1599 or 1600 pixels. *)
Definition near_threshold (m : Z) : bool :=
  match upscaled m m with
  | Some n => bool_decide (n = 1599 ∨ n = 1600)%Z
  | None => false
  end.

(** The history at the moment the request is sent. *)
Definition history_at_post (env : Env) (conversation_id human : string)
    (doc_id : option string) (w : World) : list Event :=
  history w ++ logged env (LogGpuReq (gpu_url env) (gpu_payload conversation_id human doc_id)).

(** What [requests.post] answers to the request of this call. *)
Definition downstream_reply (env : Env) (conversation_id human : string)
    (doc_id : option string) (w : World) : Outcome Response :=
  requests_post env (history_at_post env conversation_id human doc_id w) (gpu_url env)
    (gpu_payload conversation_id human doc_id) (gpu_headers env) (GPU_TIMEOUT_SEC env).

(** One call of [blob.upload_from_string], with what the store answered. *)
Record Upload := {
  up_key : string;
  up_data : list byte;
  up_content_type : string;
  up_metadata : option (gmap string string);
  up_fault : option Exn;
}.

Definition upload_of (ev : Event) : option Upload :=
  match ev with
  | EvUpload k data ct m f =>
      Some {| up_key := k; up_data := data; up_content_type := ct;
              up_metadata := m; up_fault := f |}
  | _ => None
  end.

Definition uploads (evs : list Event) : list Upload := omap upload_of evs.

(** The keys stored (uploaded without fault) with a given content type. *)
Definition stored_keys (content_type : string) (ups : list Upload) : list string :=
  up_key <$>
    filter (λ up, up_content_type up = content_type ∧ up_fault up = None) ups.

(** [w'] is [w] after the events [evs]; local files are as they were. *)
Definition grows (w w' : World) (evs : list Event) : Prop :=
  history w' = history w ++ evs ∧ files w' = files w.

(** The outcome of text extraction as the page loop sees it: the text, or
    the empty string and a warning. *)
Definition ocr_or_empty (env : Env) (i : nat) (img : Image) (w : World) : string * World :=
  match ocr_image_to_text env img w with
  | (Ok t, w') => (t, w')
  | (Raise e, w') => ("", extend w' (logged env (LogOcrWarn i e)))
  end.

Section UploadShapes.
Context (env : Env) (conv d pk name : string).

(** The image upload of page [i], with what the store answered. *)
Definition image_upload (i : nat) (img : Image) (f : option Exn) : Upload :=
  {| up_key := img_key conv d i;
     up_data := png_bytes_with_meta env img (page_meta conv d pk name i);
     up_content_type := "image/png";
     up_metadata := Some (page_meta conv d pk name i);
     up_fault := f |}.

(** The text upload of page [i], from the recognised text, the time stamp
    and what the store answered. *)
Definition text_upload (i : nat) (detail : string * string * option Exn) : Upload :=
  let '(ocr_text, ocr_at, f) := detail in
  {| up_key := txt_key conv d i;
     up_data := list_byte_of_string (str_or ocr_text "");
     up_content_type := "text/plain; charset=utf-8";
     up_metadata :=
       Some (text_meta env (page_meta conv d pk name i) (img_key conv d i) ocr_at);
     up_fault := f |}.

(** What a loop that runs to its end uploads: image then text, page by page. *)
Fixpoint page_uploads (i : nat) (pages : list Image)
    (details : list (string * string * option Exn)) : list Upload :=
  match pages, details with
  | img :: pages', detail :: details' =>
      image_upload i img None :: text_upload i detail :: page_uploads (S i) pages' details'
  | _, _ => []
  end.

(** An upload filed under this conversation and this document. *)
Definition filed_under (up : Upload) : Prop :=
  (∃ kind n, up_key up = artifact_key kind conv d n)
  ∧ ∃ m, up_metadata up = Some m
         ∧ m !! "conversation_id" = Some conv ∧ m !! "doc_id" = Some d.

(** The uploads of a loop that stops at the page of index [k]: the pages
    before it in full, then the image upload that raised. *)
Definition aborted_uploads (i : nat) (pages : list Image) (e : Exn) (ups : list Upload)
    : Prop :=
  ∃ k img details f,
    pages !! k = Some img ∧ length details = k
    ∧ ups = page_uploads i (take k pages) details ++ [image_upload (i + k) img f]
    ∧ ∀ e', f = Some e' → e' = e.

End UploadShapes.

(** The document identifier an ingestion started in world [w] generates. *)
Definition doc_id_at (env : Env) (w : World) : string := make_doc_id (uuid4 env (history w)).

(** The world in which ingestion opens the file. *)
Definition at_open (env : Env) (w : World) : World :=
  extend w [EvUuid (uuid4 env (history w))].

(** The upload of the original document, taken by the store. *)
Definition pdf_upload (conv d name : string) (raw : list byte) (uploaded_at : string)
    : Upload :=
  {| up_key := pdf_key conv d;
     up_data := raw;
     up_content_type := "application/pdf";
     up_metadata := Some (pdf_meta conv d name uploaded_at);
     up_fault := None |}.

Definition png : string := "image/png".
Definition plain_text : string := "text/plain; charset=utf-8".

(** A document of two pages: a small scan and a full page at 400 DPI. *)
Definition two_pages : list Image := [Raster "RGB" 1100 1540 1; Raster "RGB" 3400 4400 2].

(** Recognition fails on small pages, the store refuses the text of page 2,
    and signing fails for the key [unsignable], if any. *)
Definition demo_env (url : option string) (reply : Outcome Response)
    (unsignable : option string) : Env := {|
  OCR_LANG := "eng";
  TESS_VERSION := "5.3.0";
  DEBUG_LOG := true;
  SIGNED_URL_TTL_MIN := 15;
  GPU_BACKEND_URL := url;
  GPU_BEARER_TOKEN := "";
  GPU_TIMEOUT_SEC := 180;
  uuid4 := λ h, (2 ^ 64 * (12297829382473034410 + N.of_nat (length h)))%N;
  utcnow_isoformat := λ _, "2024-05-01T10:00:00";
  open_fault := λ _ _, None;
  tempfile_fault := λ _ _, None;
  tempfile_name := λ _ suffix, "/tmp/upload" +:+ suffix;
  path_suffix := λ _, ".pdf";
  convert_from_bytes := λ _ _ _, Ok two_pages;
  png_save := λ _ _, [Byte.x89; "P"%byte; "N"%byte; "G"%byte];
  upload_fault := λ _ k,
    if String.eqb k "text/no-conv/aaaaaaaaaaaaaaaa/page_2.txt"
    then Some (LibError "503 Service Unavailable") else None;
  signed_url := λ _ k _,
    if bool_decide (unsignable = Some k) then Raise (LibError "no signing key")
    else Ok ("https://storage.example/" +:+ k);
  reload_fault := λ _ _, None;
  image_to_string := λ _ im _ _,
    if ((im_size im).1 <? 3000)%Z then Raise (LibError "tesseract crashed")
    else Ok (" Hello" +:+ String "013" (String "010" "world "));
  requests_post := λ _ _ _ _ _, reply;
|}.

Definition demo_world : World := {|
  bucket := ∅;
  files := {[ "/tmp/upload.pdf" := ["%"%byte; "P"%byte; "D"%byte; "F"%byte] ]};
  history := [];
|}.

Definition demo_ingest : Outcome IngestResult * World :=
  process_pdf_to_gcs (demo_env None (Raise (LibError "unused")) None) "" "/tmp/upload.pdf"
    "report.pdf" demo_world.

Definition demo_result : IngestResult :=
  {| res_conversation_id := "no-conv"; res_doc_id := "aaaaaaaaaaaaaaaa";
     res_pdf_key := "pdfs/no-conv/aaaaaaaaaaaaaaaa.pdf"; res_pages_count := 2 |}.

(** The environment never refuses a required artifact: only the upload or
    the signing of a page text may fail. *)
Definition only_text_may_fail (env : Env) : Prop :=
  (∀ h k, upload_fault env h k = None ∨ ∃ c d i, k = txt_key c d i)
  ∧ (∀ h k, is_ok (signed_url env h k (SIGNED_URL_TTL_MIN env)) = true
            ∨ ∃ c d i, k = txt_key c d i).

(** The signing and metadata requests in a stretch of history, with what
    each one answered. *)
Definition signing_of (ev : Event) : option (string * Outcome string) :=
  match ev with EvSign k r => Some (k, r) | _ => None end.

Definition reload_of (ev : Event)
    : option (string * Outcome (option (gmap string string))) :=
  match ev with EvReload k r => Some (k, r) | _ => None end.

Definition signings (evs : list Event) : list (string * Outcome string) :=
  omap signing_of evs.

Definition reloads (evs : list Event)
    : list (string * Outcome (option (gmap string string))) :=
  omap reload_of evs.

(** The URLs of the signing requests that succeeded, in order. *)
Definition signed_of (l : list (string * Outcome string)) : list JVal :=
  JStr <$> omap (λ a, ok_value a.2) l.

(** The page records of the metadata requests that succeeded, in order. *)
Definition infos_of (l : list (string * Outcome (option (gmap string string))))
    : list JVal :=
  omap (λ a, page_info a.1 <$> ok_value a.2) l.

(** What [blob.reload()] answers for [key] in world [w]. *)
Definition reload_outcome (env : Env) (w : World) (key : string)
    : Outcome (option (gmap string string)) :=
  match reload_fault env (history w) key with
  | Some e => Raise e
  | None =>
      match bucket w !! key with
      | Some b => Ok (blob_metadata b)
      | None => Raise (LibError ("404 No such object: " +:+ key))
      end
  end.

Definition demo_reply : gmap string JVal :=
  {[ "ai" := JStr "See page 1.";
     "pages_used" := JList [JStr "pages/c1/d1/page_1.png"; JNull;
                            JStr "pages/c1/d1/page_2.png"; JStr "";
                            JStr "pages/c1/d1/page_3.png"; JNum 4;
                            JStr "pages/c1/d1/page_4.png"] ]}.

Definition demo_response : Response :=
  {| raise_for_status := None; json := Ok (JDict demo_reply) |}.

(** A deployment with a downstream endpoint that answers [demo_reply] and
    with no signing right on page 2. *)
Definition answering_env : Env :=
  demo_env (Some "http://gpu.internal:8000/") (Ok demo_response)
    (Some "pages/c1/d1/page_2.png").

(** A deployment whose downstream endpoint cannot be reached. *)
Definition unreachable_env : Env :=
  demo_env (Some "http://gpu.internal:8000/") (Raise (LibError "Connection refused")) None.

Definition stored_page (i : nat) : Blob :=
  {| blob_data := [];
     blob_content_type := "image/png";
     blob_metadata := Some (page_meta "c1" "d1" "pdfs/c1/d1.pdf" "report.pdf" i) |}.

(** Pages 1, 2 and 4 are in the bucket; page 3 is not. *)
Definition stocked_world : World := {|
  bucket := {[ "pages/c1/d1/page_1.png" := stored_page 1;
               "pages/c1/d1/page_2.png" := stored_page 2;
               "pages/c1/d1/page_4.png" := stored_page 4 ]};
  files := ∅;
  history := [];
|}.

Definition demo_answer : Outcome JVal * World :=
  call_gpu_backend answering_env "c1" "what is on page 1?" (Some "d1") stocked_world.

Definition dict_field (field : string) (r : Outcome JVal) : option JVal :=
  match r with
  | Ok (JDict d) => d !! field
  | _ => None
  end.

(** A world whose uploaded file is empty. *)
Definition empty_upload_world : World := {|
  bucket := bucket stocked_world;
  files := {[ "/tmp/upload.pdf" := [] ]};
  history := [];
|}.

Definition post_of (ev : Event) : option (string * gmap string JVal) :=
  match ev with EvPost url payload _ _ _ => Some (url, payload) | _ => None end.

Definition demo_upload : UploadFile :=
  {| filename := Some "report.pdf"; content := ["%"%byte; "P"%byte; "D"%byte; "F"%byte] |}.

(** [l] without its leading elements that satisfy [p]. *)
Fixpoint skip_while {A} (p : A → bool) (l : list A) : list A :=
  match l with
  | [] => []
  | x :: l' => if p x then skip_while p l' else l
  end.





(** A lowercase hexadecimal digit. *)
Definition is_hex_digit (c : ascii) : bool :=
  let n := nat_of_ascii c in
  ((48 <=? n) && (n <=? 57) || (97 <=? n) && (n <=? 102))%nat.

(** The keys of the pages [a], [a+1], ..., image then text. *)
Definition page_keys (conv d : string) (a n : nat) : list string :=
  flat_map (λ i, [img_key conv d i; txt_key conv d i]) (seq a n).

(** The object the store holds after an upload with metadata. *)
Definition stored_blob (data : list byte) (content_type : string)
    (meta : gmap string string) : Blob :=
  {| blob_data := data; blob_content_type := content_type; blob_metadata := Some meta |}.

(** The object stored for the image of page [i]. *)
Definition page_blob (env : Env) (conv d pk name : string) (i : nat) (img : Image) : Blob :=
  stored_blob (png_bytes_with_meta env img (page_meta conv d pk name i)) "image/png"
    (page_meta conv d pk name i).

(** A world with no local file at all. *)
Definition no_file_world : World := {| bucket := ∅; files := ∅; history := [] |}.

(** A deployment whose renderer rejects every document. *)
Definition unrenderable_env : Env := {|
  OCR_LANG := "eng";
  TESS_VERSION := "5.3.0";
  DEBUG_LOG := false;
  SIGNED_URL_TTL_MIN := 15;
  GPU_BACKEND_URL := None;
  GPU_BEARER_TOKEN := "";
  GPU_TIMEOUT_SEC := 180;
  uuid4 := λ _, 0%N;
  utcnow_isoformat := λ _, "2024-05-01T10:00:00";
  open_fault := λ _ _, None;
  tempfile_fault := λ _ _, None;
  tempfile_name := λ _ suffix, "/tmp/upload" +:+ suffix;
  path_suffix := λ _, ".pdf";
  convert_from_bytes := λ _ _ _, Raise (LibError "Unable to get page count.");
  png_save := λ _ _, [];
  upload_fault := λ _ _, None;
  signed_url := λ _ k _, Ok ("https://storage.example/" +:+ k);
  reload_fault := λ _ _, None;
  image_to_string := λ _ _ _ _, Ok "";
  requests_post := λ _ _ _ _ _, Raise (LibError "unused");
|}.

(** A response with a success status whose body is not JSON. *)
Definition garbled_response : Response :=
  {| raise_for_status := None;
     json := Raise (LibError "Expecting value: line 1 column 1 (char 0)") |}.

Definition garbled_env : Env :=
  demo_env (Some "http://gpu.internal:8000/") (Ok garbled_response) None.


(** The world after [os.remove(tmp_path)]. *)
Definition after_remove (tmp_path : string) (w : World) : World :=
  {| bucket := bucket w; files := delete tmp_path (files w);
     history := history w ++ [EvRemove tmp_path] |}.



(** An object stored without metadata, as another writer could leave it. *)
Definition bare_world : World := {|
  bucket := {[ "pages/c1/d1/page_7.png" :=
                 {| blob_data := []; blob_content_type := "image/png";
                    blob_metadata := None |} ]};
  files := ∅;
  history := [];
|}.

(** * Properties *)

(** ** Strings as character lists *)

Lemma chars_app (a b : string) : chars (a +:+ b) = (chars a ++ chars b)%list.
Proof.
  induction a as [|c a IH]; [done|].
  change (String c a +:+ b) with (String c (a +:+ b)). cbn. by rewrite IH.
Qed.

Lemma chars_inj (a b : string) : chars a = chars b → a = b.
Proof.
  intros H. rewrite <- (string_of_list_ascii_of_string a),
    <- (string_of_list_ascii_of_string b). by rewrite H.
Qed.

Lemma slash_free_app (a b : string) :
  slash_free a → slash_free b → slash_free (a +:+ b).
Proof. unfold slash_free. rewrite chars_app. set_solver. Qed.

(** Two strings cut at their last separator agree on both sides of the cut. *)
Lemma split_at_last (c : ascii) (a b x y : list ascii) :
  c ∉ x → c ∉ y → (a ++ c :: x = b ++ c :: y)%list → a = b ∧ x = y.
Proof.
  intros Hx Hy. revert b. induction a as [|a0 a IH]; intros [|b0 b] E; simplify_eq/=.
  - done.
  - set_solver.
  - set_solver.
  - destruct (IH b) as [-> ->]; done.
Qed.

Lemma pretty_N_char_no_slash (d : N) : pretty_N_char d ≠ "/"%char.
Proof. unfold pretty_N_char. repeat case_match; done. Qed.

Lemma pretty_N_go_slash_free (x : N) (s : string) :
  slash_free s → slash_free (pretty_N_go x s).
Proof.
  revert s. induction (N.lt_wf_0 x) as [x _ IH]; intros s Hs.
  destruct (decide (x = 0)%N) as [->|Hx].
  - by rewrite pretty_N_go_0.
  - rewrite pretty_N_go_step by lia. apply IH.
    + apply N.div_lt; lia.
    + unfold slash_free in *. cbn. rewrite elem_of_cons.
      intros [E|?]; [|done]. by eapply pretty_N_char_no_slash.
Qed.

Lemma str_of_nat_slash_free (i : nat) : slash_free (str_of_nat i).
Proof.
  unfold str_of_nat, pretty, pretty_nat, pretty, pretty_N.
  case_decide.
  - unfold slash_free. cbn. set_solver.
  - apply pretty_N_go_slash_free. unfold slash_free. cbn. set_solver.
Qed.

Lemma hex_char_no_slash (d : N) : hex_char d ≠ "/"%char.
Proof. unfold hex_char. repeat case_match; done. Qed.

Lemma hex_digits_slash_free (n : nat) (v : N) (acc : string) :
  slash_free acc → slash_free (hex_digits n v acc).
Proof.
  revert v acc. induction n as [|n IH]; intros v acc Hacc; [done|].
  cbn. apply IH. unfold slash_free in *. cbn. rewrite elem_of_cons.
  intros [E|?]; [|done]. by eapply hex_char_no_slash.
Qed.

Lemma str_take_slash_free (n : nat) (s : string) :
  slash_free s → slash_free (str_take n s).
Proof.
  revert s. induction n as [|n IH]; intros [|c s] Hs; cbn; try (unfold slash_free; cbn; set_solver).
  unfold slash_free in *. cbn in *. rewrite elem_of_cons in *.
  intros [E|H]; [by apply Hs; left|]. apply (IH s); [|done]. intros ?. apply Hs. by right.
Qed.

(** Every document identifier [make_doc_id] can produce is free of
    separators (it is 16 hexadecimal digits). *)
Lemma make_doc_id_slash_free (u : N) : slash_free (make_doc_id u).
Proof.
  apply str_take_slash_free, hex_digits_slash_free.
  unfold slash_free. cbn. set_solver.
Qed.

Lemma make_doc_id_length (u : N) : String.length (make_doc_id u) = 16%nat.
Proof.
  unfold make_doc_id, uuid_hex.
  assert (H : ∀ n v acc, String.length (hex_digits n v acc) = (n + String.length acc)%nat).
  { induction n as [|n IH]; intros v acc; cbn; [done|]. rewrite IH. cbn. lia. }
  assert (T : ∀ n s, (n ≤ String.length s)%nat → String.length (str_take n s) = n).
  { induction n as [|n IH]; intros [|c s] Hl; cbn in *; try lia. rewrite IH; lia. }
  apply T. rewrite H. cbn. lia.
Qed.

(** ** The artifact key scheme *)

Lemma pdf_key_chars (conv d : string) :
  chars (pdf_key conv d)
  = (chars "pdfs/" ++ chars conv ++ "/"%char :: chars (d +:+ ".pdf"))%list.
Proof. unfold pdf_key. rewrite !chars_app. cbn. by rewrite <- ?app_assoc. Qed.

Lemma img_key_chars (conv d : string) (i : nat) :
  chars (img_key conv d i)
  = (chars "pages/" ++ (chars conv ++ "/"%char :: chars d)
       ++ "/"%char :: chars ("page_" +:+ str_of_nat i +:+ ".png"))%list.
Proof. unfold img_key. rewrite !chars_app. cbn. by rewrite <- ?app_assoc. Qed.

Lemma txt_key_chars (conv d : string) (i : nat) :
  chars (txt_key conv d i)
  = (chars "text/" ++ (chars conv ++ "/"%char :: chars d)
       ++ "/"%char :: chars ("page_" +:+ str_of_nat i +:+ ".txt"))%list.
Proof. unfold txt_key. rewrite !chars_app. cbn. by rewrite <- ?app_assoc. Qed.

Lemma page_file_slash_free (i : nat) (ext : string) :
  slash_free ext → slash_free ("page_" +:+ str_of_nat i +:+ ext).
Proof.
  intros He. apply slash_free_app; [unfold slash_free; cbn; set_solver|].
  apply slash_free_app; [apply str_of_nat_slash_free|done].
Qed.

Lemma slash_free_literal_png : slash_free ".png".
Proof. unfold slash_free. cbn. set_solver. Qed.

Lemma slash_free_literal_txt : slash_free ".txt".
Proof. unfold slash_free. cbn. set_solver. Qed.

Lemma slash_free_literal_pdf : slash_free ".pdf".
Proof. unfold slash_free. cbn. set_solver. Qed.

(** A page key determines the conversation-and-document part and the file
    name: the last separator of the key is the one before [page_]. *)
Lemma paged_key_inv (pre : list ascii) (c1 c2 d1 d2 : string) (i1 i2 : nat)
    (e1 e2 : string) :
  slash_free d1 → slash_free d2 → slash_free e1 → slash_free e2 →
  (pre ++ (chars c1 ++ "/"%char :: chars d1)
       ++ "/"%char :: chars ("page_" +:+ str_of_nat i1 +:+ e1)
   = pre ++ (chars c2 ++ "/"%char :: chars d2)
       ++ "/"%char :: chars ("page_" +:+ str_of_nat i2 +:+ e2))%list →
  c1 = c2 ∧ d1 = d2.
Proof.
  intros Hd1 Hd2 He1 He2 E. apply app_inv_head in E.
  apply split_at_last in E as [E _]; try by apply page_file_slash_free.
  apply split_at_last in E as [Ec Ed]; try done.
  split; by apply chars_inj.
Qed.

Lemma pdf_key_inv (c1 c2 d1 d2 : string) :
  slash_free d1 → slash_free d2 → pdf_key c1 d1 = pdf_key c2 d2 → c1 = c2 ∧ d1 = d2.
Proof.
  intros Hd1 Hd2 E. apply (f_equal chars) in E. rewrite !pdf_key_chars in E.
  apply app_inv_head in E.
  apply split_at_last in E as [Ec Ed];
    try (apply slash_free_app; [done|apply slash_free_literal_pdf]).
  rewrite !chars_app in Ed. apply app_inv_tail in Ed.
  split; by apply chars_inj.
Qed.

(** Keys of different kinds live in different namespaces. *)
Lemma kinds_disjoint (k1 k2 : Kind) (c1 c2 d1 d2 : string) (n1 n2 : nat) :
  artifact_key k1 c1 d1 n1 = artifact_key k2 c2 d2 n2 → k1 = k2.
Proof.
  intros E. apply (f_equal chars) in E.
  destruct k1, k2; try done; cbn [artifact_key] in E;
    rewrite ?pdf_key_chars, ?img_key_chars, ?txt_key_chars in E; cbn in E; discriminate.
Qed.

(** Keys under separator-free document identifiers determine the identifier. *)
Lemma artifact_key_doc_id (k1 k2 : Kind) (c1 c2 d1 d2 : string) (n1 n2 : nat) :
  slash_free d1 → slash_free d2 →
  artifact_key k1 c1 d1 n1 = artifact_key k2 c2 d2 n2 → d1 = d2.
Proof.
  intros Hd1 Hd2 E. pose proof (kinds_disjoint _ _ _ _ _ _ _ _ E) as <-.
  destruct k1; cbn [artifact_key] in E.
  - by apply pdf_key_inv in E as [_ ?].
  - apply (f_equal chars) in E. rewrite !img_key_chars in E.
    apply paged_key_inv in E as [_ ?]; auto using slash_free_literal_png.
  - apply (f_equal chars) in E. rewrite !txt_key_chars in E.
    apply paged_key_inv in E as [_ ?]; auto using slash_free_literal_txt.
Qed.

(** C4. The artifact key is a function of (kind, conversation id, document
    id, page number) alone, it has the three documented shapes, equal inputs
    give the identical key, and two artifacts filed under distinct document
    identifiers (as [make_doc_id] generates them) never share a key, whatever
    their kinds, conversations and page numbers. *)
Theorem artifact_key_deterministic_collision_free :
  (∀ conv d n,
     artifact_key KPdf conv d n = "pdfs/" +:+ conv +:+ "/" +:+ d +:+ ".pdf"
     ∧ artifact_key KPageImage conv d n
       = "pages/" +:+ conv +:+ "/" +:+ d +:+ "/page_" +:+ str_of_nat n +:+ ".png"
     ∧ artifact_key KPageText conv d n
       = "text/" +:+ conv +:+ "/" +:+ d +:+ "/page_" +:+ str_of_nat n +:+ ".txt")
  ∧ (∀ k1 k2 c1 c2 d1 d2 n1 n2,
       k1 = k2 → c1 = c2 → d1 = d2 → n1 = n2 →
       artifact_key k1 c1 d1 n1 = artifact_key k2 c2 d2 n2)
  ∧ (∀ u1 u2 k1 k2 c1 c2 n1 n2,
       make_doc_id u1 ≠ make_doc_id u2 →
       artifact_key k1 c1 (make_doc_id u1) n1 ≠ artifact_key k2 c2 (make_doc_id u2) n2).
Proof.
  split; [done|]. split; [by intros; subst|].
  intros u1 u2 k1 k2 c1 c2 n1 n2 Hne E. apply Hne.
  eapply artifact_key_doc_id; eauto using make_doc_id_slash_free.
Qed.

Lemma artifact_key_deterministic_collision_free_witness :
  make_doc_id (2 ^ 64) ≠ make_doc_id (2 ^ 65)
  ∧ artifact_key KPageImage "c/x" (make_doc_id (2 ^ 64)) 3
    ≠ artifact_key KPageImage "c" (make_doc_id (2 ^ 65)) 3.
Proof.
  assert (H : make_doc_id (2 ^ 64) ≠ make_doc_id (2 ^ 65)) by (vm_compute; discriminate).
  split; [exact H|].
  exact (proj2 (proj2 artifact_key_deterministic_collision_free)
           (2 ^ 64)%N (2 ^ 65)%N KPageImage KPageImage "c/x" "c" 3%nat 3%nat H).
Defined.

(** ** Running the monad *)

Ltac unfold_monad :=
  unfold mbind, M_bind, mret, M_ret, raise, try_except, try_finally, emit, ask_env,
    lift, set_bucket, set_files, get_world in *.

Lemma extend_nil (w : World) : extend w [] = w.
Proof. destruct w. unfold extend. cbn. by rewrite app_nil_r. Qed.

Lemma extend_extend (w : World) (e1 e2 : list Event) :
  extend (extend w e1) e2 = extend w (e1 ++ e2).
Proof. unfold extend. cbn. by rewrite app_assoc. Qed.

Lemma _log_run (env : Env) (m : LogMsg) (w : World) :
  _log env m w = (Ok tt, extend w (logged env m)).
Proof.
  unfold _log, logged. destruct (DEBUG_LOG env); unfold_monad; [done|].
  by rewrite extend_nil.
Qed.

(** ** Text extraction preprocessing *)

Lemma ocr_preprocess_rgb (img im : Image) : ocr_preprocess img = Ok im → im_mode im = "RGB".
Proof.
  unfold ocr_preprocess. cbn [im_size]. destruct (im_size img) as [w h].
  repeat case_match; intros; simplify_eq; done.
Qed.

Lemma ocr_preprocess_large (img : Image) :
  (1600 ≤ Z.max (im_size img).1 (im_size img).2)%Z →
  ocr_preprocess img = Ok (Converted "RGB" img).
Proof.
  unfold ocr_preprocess. cbn [im_size]. destruct (im_size img) as [w h]. cbn.
  intros H. by rewrite (proj2 (Z.ltb_ge _ _) H).
Qed.

(** The larger dimension of a small scan is brought to 1599 or 1600 pixels. *)
Lemma upscaled_larger_dimension (m : Z) :
  (1 ≤ m < 1600)%Z → upscaled m m = Some 1599%Z ∨ upscaled m m = Some 1600%Z.
Proof.
  intros Hm.
  assert (A : forallb near_threshold (seqZ 1 1599) = true) by (vm_compute; reflexivity).
  rewrite forallb_forall in A.
  specialize (A m). unfold near_threshold in A.
  destruct (upscaled m m) as [n|].
  - assert (n = 1599 ∨ n = 1600)%Z as [-> | ->]; [|by left|by right].
    eapply bool_decide_eq_true_1, A, list_elem_of_In, elem_of_seqZ. lia.
  - exfalso. assert (false = true); [|done].
    apply A, list_elem_of_In, elem_of_seqZ. lia.
Qed.

(** C7. A 1100 x 1540 page, whose larger dimension is below 1600, is
    converted to RGB and resized with one scale factor, but the larger
    dimension of the image handed to recognition is 1599: the truncation of
    [1540 * (1600.0 / 1540)] falls one pixel short of the threshold. *)
Theorem ocr_preprocess_falls_short :
  ocr_preprocess (Raster "L" 1100 1540 0)
  = Ok (Resized 1142 1599 (Converted "RGB" (Raster "L" 1100 1540 0))).
Proof. vm_compute. reflexivity. Qed.

(** ** The downstream call *)

(** C9. With no downstream endpoint configured ([GPU_BACKEND_URL] unset or
    empty), [call_gpu_backend] returns the fixed stub answer and leaves the
    world exactly as it was: no request, no signing, no metadata read, not
    even a log line. *)
Theorem stub_answer_when_unconfigured (env : Env) (conversation_id human : string)
    (doc_id : option string) (w : World) :
  GPU_BACKEND_URL env = None ∨ GPU_BACKEND_URL env = Some "" →
  call_gpu_backend env conversation_id human doc_id w
  = (Ok (JDict {[ "ai" := JStr "(stub) GPU_BACKEND_URL not configured.";
                  "conversation_id" := JStr conversation_id ]}), w).
Proof.
  intros H. unfold call_gpu_backend.
  assert (url_configured (GPU_BACKEND_URL env) = false) as -> by (by destruct H as [-> | ->]).
  done.
Qed.

Lemma call_gpu_backend_failure (env : Env) (conversation_id human : string)
    (doc_id : option string) (w : World) (e : Exn) :
  url_configured (GPU_BACKEND_URL env) = true →
  (downstream_reply env conversation_id human doc_id w = Raise e
   ∨ ∃ resp, downstream_reply env conversation_id human doc_id w = Ok resp
             ∧ (raise_for_status resp = Some e
                ∨ raise_for_status resp = None ∧ json resp = Raise e)) →
  (call_gpu_backend env conversation_id human doc_id w).1
  = Raise (HTTPException 502 ("GPU backend error: " +:+ exn_str e)).
Proof.
  intros Hc H. unfold call_gpu_backend. rewrite Hc. cbn [negb].
  unfold mbind at 1, M_bind at 1. rewrite _log_run.
  unfold try_except, post. unfold_monad. cbn [history extend].
  fold (history_at_post env conversation_id human doc_id w).
  fold (downstream_reply env conversation_id human doc_id w).
  destruct H as [-> | (resp & -> & [-> | [-> ->]])]; done.
Qed.

(** C8. With a downstream endpoint configured, a transport failure of the
    request and a response that [raise_for_status] rejects both make
    [call_gpu_backend] raise [HTTPException] 502 whose detail carries the
    cause; the result is an error, never the stub answer. *)
Theorem downstream_failure_is_bad_gateway (env : Env) (conversation_id human : string)
    (doc_id : option string) (w : World) (e : Exn) :
  url_configured (GPU_BACKEND_URL env) = true →
  (downstream_reply env conversation_id human doc_id w = Raise e
   ∨ ∃ resp, downstream_reply env conversation_id human doc_id w = Ok resp
             ∧ raise_for_status resp = Some e) →
  (call_gpu_backend env conversation_id human doc_id w).1
  = Raise (HTTPException 502 ("GPU backend error: " +:+ exn_str e))
  ∧ (call_gpu_backend env conversation_id human doc_id w).1
    ≠ Ok (stub_answer conversation_id).
Proof.
  intros Hc H.
  assert (E : (call_gpu_backend env conversation_id human doc_id w).1
              = Raise (HTTPException 502 ("GPU backend error: " +:+ exn_str e))).
  { apply call_gpu_backend_failure; [done|].
    destruct H as [H | (resp & H1 & H2)]; [by left|right; eauto]. }
  split; [done|]. by rewrite E.
Qed.

(** ** Observing a run: the uploads in a stretch of history *)

Lemma uploads_app (a b : list Event) : uploads (a ++ b) = uploads a ++ uploads b.
Proof. apply omap_app. Qed.

Lemma uploads_cons (ev : Event) (evs : list Event) :
  uploads (ev :: evs)
  = match upload_of ev with Some u => u :: uploads evs | None => uploads evs end.
Proof. done. Qed.

Lemma uploads_logged (env : Env) (m : LogMsg) : uploads (logged env m) = [].
Proof. unfold logged. by destruct (DEBUG_LOG env). Qed.

Lemma grows_refl (w : World) : grows w w [].
Proof. split; [by rewrite app_nil_r|done]. Qed.

Lemma grows_trans (w1 w2 w3 : World) (e1 e2 : list Event) :
  grows w1 w2 e1 → grows w2 w3 e2 → grows w1 w3 (e1 ++ e2).
Proof. intros [H1 F1] [H2 F2]. split; [by rewrite H2, H1, app_assoc|congruence]. Qed.

Lemma grows_extend (w : World) (evs : list Event) : grows w (extend w evs) evs.
Proof. done. Qed.

Lemma page_meta_nonempty (conv d pk name : string) (i : nat) : page_meta conv d pk name i ≠ ∅.
Proof. apply insert_non_empty. Qed.

Lemma text_meta_nonempty (env : Env) (meta : gmap string string) (k t : string) :
  text_meta env meta k t ≠ ∅.
Proof. apply insert_non_empty. Qed.

Lemma pdf_meta_nonempty (conv d name t : string) : pdf_meta conv d name t ≠ ∅.
Proof. apply insert_non_empty. Qed.

(** [gcs_put_and_sign] makes exactly one upload, of the given key, bytes,
    content type and metadata; it returns only if the store took it. *)
Lemma gcs_put_and_sign_spec (env : Env) (key : string) (data : list byte) (ct : string)
    (meta : gmap string string) (w w' : World) (r : Outcome string) :
  meta ≠ ∅ →
  gcs_put_and_sign env key data ct (Some meta) w = (r, w') →
  ∃ evs f,
    grows w w' evs
    ∧ uploads evs = [{| up_key := key; up_data := data; up_content_type := ct;
                        up_metadata := Some meta; up_fault := f |}]
    ∧ (is_ok r = true → f = None)
    ∧ (∀ e, f = Some e → r = Raise e).
Proof.
  intros Hm. unfold gcs_put_and_sign. rewrite bool_decide_eq_false_2 by done.
  unfold upload_from_string, generate_signed_url.
  unfold mbind at 1 2 3 4 5 6 7, M_bind at 1 2 3 4 5 6 7. unfold_monad. cbn.
  destruct (upload_fault env (history w) key) as [e|] eqn:Hf; cbn.
  - intros [= <- <-]. eexists [_], _. split_and!; [done|done|done|by intros ? [= ->]].
  - match goal with |- context [signed_url env ?h key ?t] =>
      destruct (signed_url env h key t) as [u|e] eqn:Hs end; cbn.
    + rewrite _log_run. intros [= <- <-].
      eexists (_ :: _ :: logged env _), None.
      split_and!; [split; [cbn; by rewrite <- !app_assoc|done]| |done|done].
      by rewrite !uploads_cons, uploads_logged.
    + intros [= <- <-]. eexists [_; _], None.
      split_and!; [split; [cbn; by rewrite <- !app_assoc|done]|done|done|done].
Qed.

Lemma _now_iso_run (env : Env) (w : World) :
  _now_iso env w = (Ok (utcnow_isoformat env (history w) +:+ "Z"), w).
Proof. done. Qed.

(** Text extraction uploads nothing. *)
Lemma ocr_image_to_text_spec (env : Env) (img : Image) (w w' : World) (r : Outcome string) :
  ocr_image_to_text env img w = (r, w') →
  ∃ evs, grows w w' evs ∧ uploads evs = [].
Proof.
  unfold ocr_image_to_text, tesseract. unfold_monad.
  destruct (ocr_preprocess img) as [im|e]; cbn.
  - destruct (image_to_string env (history w) im (OCR_LANG env) "--psm 4"); cbn;
      intros [= <- <-]; by eexists [_].
  - intros [= <- <-]. exists []. split; [apply grows_refl|done].
Qed.

(** One iteration of the page loop, step by step. *)
Lemma process_page_run (env : Env) (conv d pk name : string) (i : nat) (img : Image)
    (w : World) :
  let meta := page_meta conv d pk name i in
  process_page env conv d pk name i img w
  = match gcs_put_and_sign env (img_key conv d i) (png_bytes_with_meta env img meta)
            "image/png" (Some meta) w with
    | (Raise e, w1) => (Raise e, w1)
    | (Ok _, w1) =>
        let '(ocr_text, w2) := ocr_or_empty env i img w1 in
        let ocr_at := utcnow_isoformat env (history w2) +:+ "Z" in
        match gcs_put_and_sign env (txt_key conv d i)
                (list_byte_of_string (str_or ocr_text "")) "text/plain; charset=utf-8"
                (Some (text_meta env meta (img_key conv d i) ocr_at)) w2 with
        | (Ok _, w3) => (Ok tt, w3)
        | (Raise e, w3) =>
            (Ok tt, extend w3 (logged env (LogTextUploadWarn i (txt_key conv d i) e)))
        end
    end.
Proof.
  cbn zeta. unfold process_page, ocr_or_empty.
  unfold mbind at 1, M_bind at 1.
  destruct (gcs_put_and_sign env (img_key conv d i) _ _ _ w) as [[u|e] w1]; [|done].
  unfold mbind at 1, M_bind at 1, try_except at 1.
  destruct (ocr_image_to_text env img w1) as [[t|e] w2].
  - unfold mbind at 1, M_bind at 1. rewrite _now_iso_run. unfold try_except.
    unfold mbind at 1, M_bind at 1.
    destruct (gcs_put_and_sign env (txt_key conv d i) _ _ _ w2) as [[u'|e'] w3]; [done|].
    by rewrite _log_run.
  - unfold mbind at 1, M_bind at 1. rewrite _log_run. unfold mret at 1, M_ret at 1.
    unfold mbind at 1, M_bind at 1. rewrite _now_iso_run. unfold try_except.
    unfold mbind at 1, M_bind at 1.
    destruct (gcs_put_and_sign env (txt_key conv d i) _ _ _ _) as [[u'|e'] w3]; [done|].
    by rewrite _log_run.
Qed.

(** ** The uploads of the page loop *)

Section PageUploads.
Context (env : Env) (conv d pk name : string).

Lemma image_upload_filed (i : nat) (img : Image) (f : option Exn) :
  filed_under conv d (image_upload env conv d pk name i img f).
Proof.
  split; [by exists KPageImage, i|].
  eexists. split; [done|]. unfold page_meta. by simplify_map_eq.
Qed.

Lemma text_upload_filed (i : nat) (detail : string * string * option Exn) :
  filed_under conv d (text_upload env conv d pk name i detail).
Proof.
  destruct detail as [[t a] f]. split; [by exists KPageText, i|].
  eexists. split; [done|]. unfold text_meta, page_meta. by simplify_map_eq.
Qed.

Lemma page_uploads_filed (i : nat) (pages : list Image)
    (details : list (string * string * option Exn)) :
  Forall (filed_under conv d) (page_uploads env conv d pk name i pages details).
Proof.
  revert i details. induction pages as [|img pages IH]; intros i [|dt details]; cbn;
    auto using image_upload_filed, text_upload_filed.
Qed.

Lemma process_page_spec (i : nat) (img : Image) (w w' : World) (r : Outcome unit) :
  process_page env conv d pk name i img w = (r, w') →
  ∃ evs, grows w w' evs
    ∧ match r with
      | Ok _ => ∃ detail, uploads evs = [image_upload env conv d pk name i img None; text_upload env conv d pk name i detail]
      | Raise e => ∃ f, uploads evs = [image_upload env conv d pk name i img f] ∧ ∀ e', f = Some e' → e' = e
      end.
Proof.
  rewrite process_page_run. cbn zeta.
  destruct (gcs_put_and_sign env (img_key conv d i) _ _ _ w) as [[u|e] w1] eqn:E1.
  2:{ intros [= <- <-].
      apply gcs_put_and_sign_spec in E1 as (evs & f & G & U & _ & Hf);
        [|apply page_meta_nonempty].
      exists evs. split; [done|]. exists f. split; [done|].
      intros e' He'. specialize (Hf e' He'). congruence. }
  apply gcs_put_and_sign_spec in E1 as (evs1 & f1 & G1 & U1 & F1 & _);
    [|apply page_meta_nonempty]. rewrite F1 in U1 by done.
  unfold ocr_or_empty.
  destruct (ocr_image_to_text env img w1) as [r2 w2] eqn:E2.
  apply ocr_image_to_text_spec in E2 as (evs2 & G2 & U2).
  assert (∃ t w2' evs2', (match r2 with
                          | Ok t => (t, w2)
                          | Raise e => ("", extend w2 (logged env (LogOcrWarn i e)))
                          end) = (t, w2') ∧ grows w1 w2' evs2' ∧ uploads evs2' = [])
    as (t & w2' & evs2' & -> & G2' & U2').
  { destruct r2 as [t|e]; [by eauto 6|].
    eexists _, _, (evs2 ++ logged env _). split; [done|]. split.
    - eapply grows_trans; [done|apply grows_extend].
    - by rewrite uploads_app, U2, uploads_logged. }
  destruct (gcs_put_and_sign env (txt_key conv d i) _ _ _ w2') as [[u3|e3] w3] eqn:E3;
    apply gcs_put_and_sign_spec in E3 as (evs3 & f3 & G3 & U3 & F3 & _);
    try apply text_meta_nonempty; intros [= <- <-].
  - exists (evs1 ++ evs2' ++ evs3). split; [eauto using grows_trans|].
    eexists (t, _, f3). by rewrite !uploads_app, U1, U2', U3.
  - exists (evs1 ++ evs2' ++ evs3 ++ logged env (LogTextUploadWarn i (txt_key conv d i) e3)).
    split; [eauto using grows_trans, grows_extend|].
    eexists (t, _, f3). by rewrite !uploads_app, U1, U2', U3, uploads_logged.
Qed.

Lemma process_pages_spec (pages : list Image) (i : nat) (w w' : World) (r : Outcome unit) :
  process_pages env conv d pk name i pages w = (r, w') →
  ∃ evs, grows w w' evs
    ∧ Forall (filed_under conv d) (uploads evs)
    ∧ match r with
      | Ok _ => ∃ details, length details = length pages
                           ∧ uploads evs = page_uploads env conv d pk name i pages details
      | Raise e => aborted_uploads env conv d pk name i pages e (uploads evs)
      end.
Proof.
  revert i w. induction pages as [|img pages IH]; intros i w; cbn [process_pages].
  - intros [= <- <-]. exists []. split_and!; [apply grows_refl|done|]. by exists [].
  - unfold mbind at 1, M_bind at 1.
    destruct (process_page env conv d pk name i img w) as [[[]|e] w1] eqn:E1;
      apply process_page_spec in E1 as (evs1 & G1 & U1).
    + destruct U1 as [detail U1]. intros E2.
      apply IH in E2 as (evs2 & G2 & F2 & U2).
      exists (evs1 ++ evs2). split_and!; [eauto using grows_trans| |].
      * rewrite uploads_app, U1. apply Forall_app. split; [|done].
        apply Forall_cons_2; [apply image_upload_filed|].
        apply Forall_cons_2; [apply text_upload_filed|constructor].
      * destruct r as [[]|e].
        -- destruct U2 as (details & L & U).
           exists (detail :: details). split; [cbn; lia|].
           by rewrite uploads_app, U1, U.
        -- destruct U2 as (k & img' & details & f & Hk & L & U & Hf).
           exists (S k), img', (detail :: details), f.
           split_and!; [done|cbn; lia| |done].
           rewrite uploads_app, U1, U. cbn. by rewrite Nat.add_succ_r.
    + destruct U1 as (f & U1 & Hf). intros [= <- <-]. exists evs1.
      split_and!; [done| |].
      * rewrite U1. apply Forall_cons_2; [apply image_upload_filed|constructor].
      * exists 0%nat, img, [], f. split_and!; [done|done| |done].
        rewrite U1. cbn. by rewrite Nat.add_0_r.
Qed.

End PageUploads.

(** ** Ingestion of a document *)

Lemma read_file_run (env : Env) (path : string) (w : World) :
  read_file env path w
  = (match open_fault env (history w) path with
     | Some e => Raise e
     | None =>
         match files w !! path with
         | Some raw => Ok raw
         | None => Raise (LibError ("[Errno 2] No such file or directory: " +:+ path))
         end
     end, extend w [EvOpen path]).
Proof.
  unfold read_file. unfold_monad. cbn.
  destruct (open_fault env (history w) path); [done|]. cbn.
  by destruct (files w !! path).
Qed.

Lemma pil_images_from_pdf_bytes_run (env : Env) (raw : list byte) (dpi : Z) (w : World) :
  pil_images_from_pdf_bytes env raw dpi w
  = (convert_from_bytes env (history w) raw dpi,
     extend w [EvRender (convert_from_bytes env (history w) raw dpi)]).
Proof. unfold pil_images_from_pdf_bytes. unfold_monad. cbn. by destruct (convert_from_bytes _ _ _ _). Qed.

Lemma pdf_upload_filed (conv d name : string) (raw : list byte) (t : string)
    (f : option Exn) :
  filed_under conv d
    {| up_key := pdf_key conv d; up_data := raw; up_content_type := "application/pdf";
       up_metadata := Some (pdf_meta conv d name t); up_fault := f |}.
Proof.
  split; [by exists KPdf, 0%nat|].
  eexists. split; [done|]. unfold pdf_meta. by simplify_map_eq.
Qed.

(** Ingestion up to the emptiness check. *)
Lemma process_pdf_to_gcs_read (env : Env) (conversation_id path name : string) (w : World) :
  let conv := str_or conversation_id "no-conv" in
  let d := doc_id_at env w in
  let w1 := extend w [EvUuid (uuid4 env (history w)); EvOpen path] in
  process_pdf_to_gcs env conversation_id path name w
  = match (read_file env path (at_open env w)).1 with
    | Raise e => (Raise (HTTPException 400 ("Could not read file: " +:+ exn_str e)), w1)
    | Ok [] => (Raise (HTTPException 400 "File is empty."), w1)
    | Ok raw =>
        (_log env (LogPdfRead name (length raw) conv d);;
         uploaded_at ← _now_iso env;
         gcs_put_and_sign env (pdf_key conv d) raw "application/pdf"
           (Some (pdf_meta conv d name uploaded_at));;
         pil_pages ← pil_images_from_pdf_bytes env raw 400;
         _log env (LogRenderOk (length pil_pages));;
         process_pages env conv d (pdf_key conv d) name 1 pil_pages;;
         mret {| res_conversation_id := conv; res_doc_id := d;
                 res_pdf_key := pdf_key conv d; res_pages_count := length pil_pages |}) w1
    end.
Proof.
  cbn zeta. unfold process_pdf_to_gcs, doc_id_at, at_open.
  unfold mbind at 1 2 3, M_bind at 1 2 3, ask_env at 1, emit at 1, try_except at 1.
  cbn [history]. fold (extend w [EvUuid (uuid4 env (history w))]).
  rewrite read_file_run. cbn [fst extend history bucket files].
  rewrite !extend_extend. cbn [app]. unfold raise.
  match goal with |- context [open_fault env ?h path] => destruct (open_fault env h path) end;
    [done|].
  destruct (files w !! path) as [[|b raw]|]; done.
Qed.

(** Everything an ingestion uploads is filed under its conversation and its
    document identifier; an ingestion that returns has uploaded the document
    and then, page by page, each image and its text; one that raises has
    either not reached the pages or stopped at an image upload. *)
Lemma process_pdf_to_gcs_spec (env : Env) (conversation_id path name : string)
    (w w' : World) (r : Outcome IngestResult) :
  let conv := str_or conversation_id "no-conv" in
  let d := doc_id_at env w in
  process_pdf_to_gcs env conversation_id path name w = (r, w') →
  ∃ evs, grows w w' evs
    ∧ Forall (filed_under conv d) (uploads evs)
    ∧ (∀ res, r = Ok res →
       ∃ raw uploaded_at pages details,
         files w !! path = Some raw ∧ raw ≠ []
         ∧ EvRender (Ok pages) ∈ evs
         ∧ res = {| res_conversation_id := conv; res_doc_id := d;
                    res_pdf_key := pdf_key conv d; res_pages_count := length pages |}
         ∧ length details = length pages
         ∧ uploads evs
           = pdf_upload conv d name raw uploaded_at
             :: page_uploads env conv d (pdf_key conv d) name 1 pages details)
    ∧ (∀ e, r = Raise e →
       Forall (λ up, up_content_type up = "application/pdf") (uploads evs)
       ∨ ∃ raw uploaded_at pages rest,
           uploads evs = pdf_upload conv d name raw uploaded_at :: rest
           ∧ aborted_uploads env conv d (pdf_key conv d) name 1 pages e rest).
Proof.
  cbn zeta. rewrite process_pdf_to_gcs_read. cbn zeta.
  rewrite read_file_run. cbn [fst].
  set (w1 := extend w [EvUuid (uuid4 env (history w)); EvOpen path]).
  assert (G0 : grows w w1 [EvUuid (uuid4 env (history w)); EvOpen path]) by done.
  set (conv := str_or conversation_id "no-conv"). set (d := doc_id_at env w).
  destruct (open_fault env (history (at_open env w)) path) as [e|].
  { intros [= <- <-]. eexists. split_and!; [done|constructor|done|]. intros; left; constructor. }
  destruct (files (at_open env w) !! path) as [raw|] eqn:Hraw.
  2:{ intros [= <- <-]. eexists. split_and!; [done|constructor|done|].
      intros; left; constructor. }
  destruct raw as [|b raw].
  { intros [= <- <-]. eexists. split_and!; [done|constructor|done|]. intros; left; constructor. }
  set (raw' := b :: raw) in *.
  unfold mbind at 1, M_bind at 1. rewrite _log_run.
  unfold mbind at 1, M_bind at 1. rewrite _now_iso_run.
  unfold mbind at 1, M_bind at 1.
  match goal with |- context [gcs_put_and_sign env ?k ?dt ?ct (Some ?m) ?w0] =>
    destruct (gcs_put_and_sign env k dt ct (Some m) w0) as [[u|e] w2] eqn:E2;
    apply gcs_put_and_sign_spec in E2 as (evs2 & f2 & G2 & U2 & F2 & _);
    [| apply pdf_meta_nonempty | | apply pdf_meta_nonempty]
  end.
  2:{ intros [= <- <-].
      eexists (_ ++ logged env _ ++ evs2). split_and!.
      - eapply grows_trans; [exact G0|]. eapply grows_trans; [apply grows_extend|exact G2].
      - rewrite !uploads_app, uploads_logged, U2. cbn.
        apply Forall_cons_2; [apply pdf_upload_filed|constructor].
      - done.
      - intros ? _. left. rewrite !uploads_app, uploads_logged, U2. cbn.
        by apply Forall_cons_2. }
  rewrite F2 in U2 by done.
  unfold mbind at 1, M_bind at 1. rewrite pil_images_from_pdf_bytes_run.
  destruct (convert_from_bytes env (history w2) raw' 400) as [pages|e] eqn:Hrender.
  2:{ intros [= <- <-].
      eexists (_ ++ logged env _ ++ evs2 ++ [_]). split_and!.
      - eapply grows_trans; [exact G0|]. eapply grows_trans; [apply grows_extend|].
        eapply grows_trans; [exact G2|apply grows_extend].
      - rewrite !uploads_app, uploads_logged, U2. cbn.
        apply Forall_cons_2; [apply pdf_upload_filed|constructor].
      - done.
      - intros ? _. left. rewrite !uploads_app, uploads_logged, U2. cbn.
        by apply Forall_cons_2. }
  unfold mbind at 1, M_bind at 1. rewrite _log_run.
  unfold mbind at 1, M_bind at 1.
  match goal with |- context [process_pages env conv d ?pk name 1 pages ?w0] =>
    destruct (process_pages env conv d pk name 1 pages w0) as [[[]|e] w3] eqn:E3;
    apply process_pages_spec in E3 as (evs3 & G3 & A3 & U3)
  end; intros [= <- <-];
    (eexists (_ ++ logged env _ ++ evs2 ++ [_] ++ logged env _ ++ evs3); split_and!;
     [ eapply grows_trans; [exact G0|]; eapply grows_trans; [apply grows_extend|];
       eapply grows_trans; [exact G2|]; eapply grows_trans; [apply grows_extend|];
       eapply grows_trans; [apply grows_extend|exact G3]
     | rewrite !uploads_app, !uploads_logged, U2; cbn;
       apply Forall_cons_2; [apply pdf_upload_filed|done]
     | | ]); try done.
  - intros res [= <-]. destruct U3 as (details & L & U).
    exists raw', (utcnow_isoformat env
                    (history (extend w1 (logged env (LogPdfRead name (length raw') conv d))))
                  +:+ "Z"), pages, details.
    split_and!; try done.
    + rewrite !elem_of_app. right. right. right. left. by apply list_elem_of_singleton.
    + by rewrite !uploads_app, !uploads_logged, U2, U.
  - intros e' [= <-]. right.
    exists raw', (utcnow_isoformat env
                    (history (extend w1 (logged env (LogPdfRead name (length raw') conv d))))
                  +:+ "Z"), pages, (uploads evs3).
    split; [|done]. by rewrite !uploads_app, !uploads_logged, U2.
Qed.

(** C5. When the document read back for ingestion has no bytes,
    [process_pdf_to_gcs] raises [HTTPException] 400 "File is empty."; by then
    it has uploaded nothing and the bucket is what it was. *)
Theorem empty_document_rejected (env : Env) (conversation_id path name : string)
    (w : World) :
  open_fault env (history (at_open env w)) path = None →
  files w !! path = Some [] →
  ∃ w',
    process_pdf_to_gcs env conversation_id path name w
    = (Raise (HTTPException 400 "File is empty."), w')
    ∧ bucket w' = bucket w
    ∧ ∃ evs, history w' = history w ++ evs ∧ uploads evs = [].
Proof.
  intros Hopen Hfile. rewrite process_pdf_to_gcs_read. cbn zeta.
  rewrite read_file_run, Hopen. cbn [fst at_open extend files]. rewrite Hfile.
  eexists. split_and!; [done|done|]. by eexists.
Qed.

(** ** Counting the uploads of a completed ingestion *)

Section Counting.
Context (env : Env) (conv d pk name : string).

Lemma page_uploads_keys (pages : list Image) (details : list (string * string * option Exn))
    (i : nat) :
  length details = length pages →
  up_key <$> page_uploads env conv d pk name i pages details
  = flat_map (λ j, [img_key conv d j; txt_key conv d j]) (seq i (length pages)).
Proof.
  revert details i. induction pages as [|img pages IH]; intros [|[[t a] f] details] i L;
    cbn in *; try done. f_equal. f_equal. apply IH. lia.
Qed.

Lemma page_uploads_images (pages : list Image)
    (details : list (string * string * option Exn)) (i : nat) :
  length details = length pages →
  stored_keys png (page_uploads env conv d pk name i pages details)
  = img_key conv d <$> seq i (length pages).
Proof.
  unfold stored_keys.
  revert details i. induction pages as [|img pages IH]; intros [|[[t a] f] details] i L;
    cbn in *; try done.
  rewrite decide_True by done. rewrite decide_False by (by intros [? _]).
  cbn. f_equal. apply IH. lia.
Qed.

Lemma page_uploads_texts (pages : list Image)
    (details : list (string * string * option Exn)) (i : nat) :
  length details = length pages →
  stored_keys plain_text (page_uploads env conv d pk name i pages details)
  `sublist_of` txt_key conv d <$> seq i (length pages).
Proof.
  unfold stored_keys.
  revert details i. induction pages as [|img pages IH]; intros [|[[t a] f] details] i L;
    cbn in *; try done.
  rewrite decide_False by (by intros [? _]).
  destruct f as [e|].
  - rewrite decide_False by (by intros [_ ?]). apply sublist_cons. apply IH. lia.
  - rewrite decide_True by done. cbn. apply sublist_skip. apply IH. lia.
Qed.

End Counting.

(** ** A concrete deployment, for running the model *)

Example demo_ingest_result :
  demo_ingest.1
  = Ok {| res_conversation_id := "no-conv"; res_doc_id := "aaaaaaaaaaaaaaaa";
          res_pdf_key := "pdfs/no-conv/aaaaaaaaaaaaaaaa.pdf"; res_pages_count := 2 |}.
Proof. vm_compute. reflexivity. Qed.

Example demo_ingest_uploads :
  (λ up, (up_key up, up_data up, up_fault up)) <$> uploads (history demo_ingest.2)
  = [("pdfs/no-conv/aaaaaaaaaaaaaaaa.pdf", ["%"%byte; "P"%byte; "D"%byte; "F"%byte], None);
     ("pages/no-conv/aaaaaaaaaaaaaaaa/page_1.png",
      [Byte.x89; "P"%byte; "N"%byte; "G"%byte], None);
     ("text/no-conv/aaaaaaaaaaaaaaaa/page_1.txt", [], None);
     ("pages/no-conv/aaaaaaaaaaaaaaaa/page_2.png",
      [Byte.x89; "P"%byte; "N"%byte; "G"%byte], None);
     ("text/no-conv/aaaaaaaaaaaaaaaa/page_2.txt", list_byte_of_string "Hello
world", Some (LibError "503 Service Unavailable"))].
Proof. vm_compute. reflexivity. Qed.

(** C3. An ingestion that returns has read a non-empty document, rendered
    it to N pages and reports N; it stored exactly the N page images
    [page_1.png .. page_N.png] and at most N page texts, a sublist of
    [page_1.txt .. page_N.txt], all under the one document identifier it
    generated; and its uploads were made in the order document, image 1,
    text 1, image 2, text 2, ..., image N, text N. *)
Theorem ingestion_uploads_every_page (env : Env) (conversation_id path name : string)
    (w w' : World) (res : IngestResult) :
  process_pdf_to_gcs env conversation_id path name w = (Ok res, w') →
  ∃ evs raw pages,
    history w' = history w ++ evs
    ∧ files w !! path = Some raw ∧ raw ≠ []
    ∧ EvRender (Ok pages) ∈ evs
    ∧ res_pages_count res = length pages
    ∧ res_doc_id res = doc_id_at env w
    ∧ stored_keys png (uploads evs)
      = img_key (res_conversation_id res) (res_doc_id res) <$> seq 1 (length pages)
    ∧ length (stored_keys png (uploads evs)) = length pages
    ∧ stored_keys plain_text (uploads evs)
      `sublist_of` txt_key (res_conversation_id res) (res_doc_id res) <$> seq 1 (length pages)
    ∧ (length (stored_keys plain_text (uploads evs)) ≤ length pages)%nat
    ∧ up_key <$> uploads evs
      = pdf_key (res_conversation_id res) (res_doc_id res)
        :: flat_map (λ i, [img_key (res_conversation_id res) (res_doc_id res) i;
                           txt_key (res_conversation_id res) (res_doc_id res) i])
             (seq 1 (length pages)).
Proof.
  intros H. apply process_pdf_to_gcs_spec in H as (evs & [Hh _] & _ & Hok & _).
  destruct (Hok res eq_refl) as (raw & t & pages & details & Hf & Hraw & Hr & -> & L & U).
  cbn [res_conversation_id res_doc_id res_pages_count].
  set (conv := str_or conversation_id "no-conv") in *. set (d := doc_id_at env w) in *.
  assert (Himg : stored_keys png (uploads evs) = img_key conv d <$> seq 1 (length pages)).
  { rewrite U. unfold stored_keys. rewrite filter_cons_False by (by intros [? _]).
    by apply page_uploads_images. }
  assert (Htxt : stored_keys plain_text (uploads evs)
                 `sublist_of` txt_key conv d <$> seq 1 (length pages)).
  { rewrite U. unfold stored_keys. rewrite filter_cons_False by (by intros [? _]).
    by apply page_uploads_texts. }
  exists evs, raw, pages. split_and!; try done.
  - by rewrite Himg, length_fmap, length_seq.
  - apply sublist_length in Htxt. by rewrite length_fmap, length_seq in Htxt.
  - rewrite U. cbn. f_equal. by apply page_uploads_keys.
Qed.

Lemma demo_ingest_run : demo_ingest = (Ok demo_result, demo_ingest.2).
Proof.
  assert (H : demo_ingest.1 = Ok demo_result) by (vm_compute; reflexivity).
  destruct demo_ingest as [r w']. cbn in *. by rewrite H.
Defined.

Lemma ingestion_uploads_every_page_witness :
  ∃ evs raw pages,
    history demo_ingest.2 = history demo_world ++ evs
    ∧ files demo_world !! "/tmp/upload.pdf" = Some raw ∧ raw ≠ []
    ∧ EvRender (Ok pages) ∈ evs
    ∧ res_pages_count demo_result = length pages
    ∧ res_doc_id demo_result
      = doc_id_at (demo_env None (Raise (LibError "unused")) None) demo_world
    ∧ stored_keys png (uploads evs)
      = img_key "no-conv" "aaaaaaaaaaaaaaaa" <$> seq 1 (length pages)
    ∧ length (stored_keys png (uploads evs)) = length pages
    ∧ stored_keys plain_text (uploads evs)
      `sublist_of` txt_key "no-conv" "aaaaaaaaaaaaaaaa" <$> seq 1 (length pages)
    ∧ (length (stored_keys plain_text (uploads evs)) ≤ length pages)%nat
    ∧ up_key <$> uploads evs
      = pdf_key "no-conv" "aaaaaaaaaaaaaaaa"
        :: flat_map (λ i, [img_key "no-conv" "aaaaaaaaaaaaaaaa" i;
                           txt_key "no-conv" "aaaaaaaaaaaaaaaa" i])
             (seq 1 (length pages)).
Proof.
  pose proof demo_ingest_run as H. unfold demo_ingest at 1 in H.
  exact (ingestion_uploads_every_page _ _ _ _ _ _ _ H).
Defined.

(** C6 (as amended). When the conversation identifier is empty, ingestion
    uses "no-conv" in its place: every upload it makes has a key of the
    scheme under "no-conv" and metadata whose [conversation_id] is "no-conv",
    and the summary it returns carries "no-conv". *)
Theorem blank_conversation_placeholder (env : Env) (path name : string) (w w' : World)
    (r : Outcome IngestResult) :
  process_pdf_to_gcs env "" path name w = (r, w') →
  ∃ evs,
    history w' = history w ++ evs
    ∧ Forall (λ up,
        (∃ kind n, up_key up = artifact_key kind "no-conv" (doc_id_at env w) n)
        ∧ ∃ m, up_metadata up = Some m ∧ m !! "conversation_id" = Some "no-conv")
        (uploads evs)
    ∧ ∀ res, r = Ok res → res_conversation_id res = "no-conv".
Proof.
  intros H. apply process_pdf_to_gcs_spec in H as (evs & [Hh _] & Hall & Hok & _).
  exists evs. split_and!; [done| |].
  - eapply Forall_impl; [exact Hall|]. intros up [Hk (m & Hm & Hc & _)]. eauto.
  - intros res ->. by destruct (Hok res eq_refl) as (? & ? & ? & ? & _ & _ & _ & -> & _).
Qed.

Lemma blank_conversation_placeholder_witness :
  ∃ evs,
    history demo_ingest.2 = history demo_world ++ evs
    ∧ Forall (λ up,
        (∃ kind n, up_key up
                   = artifact_key kind "no-conv"
                       (doc_id_at (demo_env None (Raise (LibError "unused")) None)
                          demo_world) n)
        ∧ ∃ m, up_metadata up = Some m ∧ m !! "conversation_id" = Some "no-conv")
        (uploads evs)
    ∧ ∀ res, Ok demo_result = Ok res → res_conversation_id res = "no-conv".
Proof.
  pose proof demo_ingest_run as H. unfold demo_ingest at 1 in H.
  exact (blank_conversation_placeholder _ _ _ _ _ _ H).
Defined.

(** ** Failure policy of the page loop *)

Section FailurePolicy.
Context (env : Env) (conv d pk name : string).

Let put_image (i : nat) (img : Image) : M string :=
  gcs_put_and_sign env (img_key conv d i)
    (png_bytes_with_meta env img (page_meta conv d pk name i)) "image/png"
    (Some (page_meta conv d pk name i)).

Lemma image_failure_aborts (i : nat) (img : Image) (rest : list Image) (w w1 : World)
    (e : Exn) :
  put_image i img w = (Raise e, w1) →
  process_pages env conv d pk name i (img :: rest) w = (Raise e, w1).
Proof.
  intros H. cbn [process_pages]. unfold mbind at 1, M_bind at 1.
  rewrite process_page_run. cbn zeta. unfold put_image in H. by rewrite H.
Qed.

Lemma optional_failures_continue (i : nat) (img : Image) (rest : list Image)
    (w w1 : World) (u : string) :
  put_image i img w = (Ok u, w1) →
  ∃ w3 evs detail,
    process_page env conv d pk name i img w = (Ok tt, w3)
    ∧ process_pages env conv d pk name i (img :: rest) w
      = process_pages env conv d pk name (S i) rest w3
    ∧ grows w w3 evs
    ∧ uploads evs = [image_upload env conv d pk name i img None;
                     text_upload env conv d pk name i detail]
    ∧ (∀ e w', ocr_image_to_text env img w1 = (Raise e, w') →
         up_data (text_upload env conv d pk name i detail) = []
         ∧ logged env (LogOcrWarn i e) ⊆ evs)
    ∧ (∀ e, up_fault (text_upload env conv d pk name i detail) = Some e →
         logged env (LogTextUploadWarn i (txt_key conv d i) e) ⊆ evs).
Proof.
  intros H. unfold put_image in H.
  assert (P : ∃ w3 evs detail,
    process_page env conv d pk name i img w = (Ok tt, w3)
    ∧ grows w w3 evs
    ∧ uploads evs = [image_upload env conv d pk name i img None;
                     text_upload env conv d pk name i detail]
    ∧ (∀ e w', ocr_image_to_text env img w1 = (Raise e, w') →
         up_data (text_upload env conv d pk name i detail) = []
         ∧ logged env (LogOcrWarn i e) ⊆ evs)
    ∧ (∀ e, up_fault (text_upload env conv d pk name i detail) = Some e →
         logged env (LogTextUploadWarn i (txt_key conv d i) e) ⊆ evs)).
  { rewrite process_page_run. cbn zeta. rewrite H.
    apply gcs_put_and_sign_spec in H as (evs1 & f1 & G1 & U1 & F1 & _);
      [|apply page_meta_nonempty]. rewrite F1 in U1 by done.
    unfold ocr_or_empty.
    destruct (ocr_image_to_text env img w1) as [r2 w2] eqn:E2.
    apply ocr_image_to_text_spec in E2 as (evs2 & G2 & U2).
    assert (∃ t w2' evs2',
      (match r2 with
       | Ok t => (t, w2)
       | Raise e => ("", extend w2 (logged env (LogOcrWarn i e)))
       end) = (t, w2') ∧ grows w1 w2' evs2' ∧ uploads evs2' = []
      ∧ ∀ e, r2 = Raise e → t = "" ∧ logged env (LogOcrWarn i e) ⊆ evs2')
      as (t & w2' & evs2' & -> & G2' & U2' & O2).
    { destruct r2 as [t|e]; [by exists t, w2, evs2|].
      eexists _, _, (evs2 ++ logged env _). split; [done|]. split_and!.
      - eapply grows_trans; [done|apply grows_extend].
      - by rewrite uploads_app, U2, uploads_logged.
      - intros e' [= <-]. split; [done|]. set_solver. }
    destruct (gcs_put_and_sign env (txt_key conv d i) _ _ _ w2') as [[u3|e3] w3] eqn:E3;
      apply gcs_put_and_sign_spec in E3 as (evs3 & f3 & G3 & U3 & F3 & R3);
      try apply text_meta_nonempty.
    - eexists w3, (evs1 ++ evs2' ++ evs3), (t, _, f3).
      split_and!; [done|eauto using grows_trans| by rewrite !uploads_app, U1, U2', U3| |].
      + intros e w' [= -> <-]. destruct (O2 e eq_refl) as [-> Hl].
        split; [done|]. set_solver.
      + cbn. intros e Hf. by specialize (R3 e Hf).
    - eexists _, (evs1 ++ evs2' ++ evs3
                  ++ logged env (LogTextUploadWarn i (txt_key conv d i) e3)), (t, _, f3).
      split_and!; [done|eauto using grows_trans, grows_extend
                  |by rewrite !uploads_app, U1, U2', U3, uploads_logged| |].
      + intros e w' [= -> <-]. destruct (O2 e eq_refl) as [-> Hl].
        split; [done|]. set_solver.
      + cbn. intros e Hf. specialize (R3 e Hf) as [= <-]. set_solver. }
  destruct P as (w3 & evs & detail & Hp & G & U & O & T).
  exists w3, evs, detail. split_and!; try done.
  cbn [process_pages]. unfold mbind at 1, M_bind at 1. by rewrite Hp.
Qed.

End FailurePolicy.

Lemma txt_key_not_other (c1 c2 d1 d2 : string) (i n : nat) (k : Kind) :
  k ≠ KPageText → artifact_key k c1 d1 n ≠ txt_key c2 d2 i.
Proof.
  intros Hk E. apply Hk.
  exact (kinds_disjoint k KPageText c1 c2 d1 d2 n i E).
Qed.

(** A required upload goes through when only page texts may fail. *)
Lemma gcs_put_and_sign_required (env : Env) (k : Kind) (conv d : string) (n : nat)
    (data : list byte) (ct : string) (meta : gmap string string) (w : World) :
  only_text_may_fail env → k ≠ KPageText → meta ≠ ∅ →
  ∃ u w', gcs_put_and_sign env (artifact_key k conv d n) data ct (Some meta) w = (Ok u, w').
Proof.
  intros [Hup Hsign] Hk Hm. unfold gcs_put_and_sign.
  rewrite bool_decide_eq_false_2 by done.
  unfold upload_from_string, generate_signed_url.
  unfold mbind at 1 2 3 4 5 6 7, M_bind at 1 2 3 4 5 6 7. unfold_monad. cbn.
  destruct (Hup (history w) (artifact_key k conv d n)) as [-> | (c' & d' & i' & E)];
    [|by eapply txt_key_not_other in E]. cbn.
  match goal with |- context [signed_url env ?h ?key ?t] =>
    destruct (Hsign h key) as [Hs | (c' & d' & i' & E)];
      [|by eapply txt_key_not_other in E];
    destruct (signed_url env h key t) as [u|e]; [|done] end.
  cbn. rewrite _log_run. eauto.
Qed.

Lemma process_pages_required (env : Env) (conv d pk name : string) (pages : list Image)
    (i : nat) (w : World) :
  only_text_may_fail env →
  ∃ w', process_pages env conv d pk name i pages w = (Ok tt, w').
Proof.
  intros Henv. revert i w. induction pages as [|img pages IH]; intros i w.
  - by eexists.
  - destruct (gcs_put_and_sign_required env KPageImage conv d i
                (png_bytes_with_meta env img (page_meta conv d pk name i)) "image/png"
                (page_meta conv d pk name i) w Henv) as (u & w1 & H);
      [done|apply page_meta_nonempty|].
    destruct (optional_failures_continue env conv d pk name i img pages w w1 u H)
      as (w3 & _ & _ & _ & -> & _).
    apply IH.
Qed.

(** With the required artifacts never refused, a readable non-empty
    document that renders to [pages] is ingested to the end. *)
Lemma required_ok_completes (env : Env) (conversation_id path name : string) (w : World)
    (raw : list byte) (pages : list Image) :
  only_text_may_fail env →
  open_fault env (history (at_open env w)) path = None →
  files w !! path = Some raw → raw ≠ [] →
  (∀ h, convert_from_bytes env h raw 400 = Ok pages) →
  ∃ w', process_pdf_to_gcs env conversation_id path name w
        = (Ok {| res_conversation_id := str_or conversation_id "no-conv";
                 res_doc_id := doc_id_at env w;
                 res_pdf_key := pdf_key (str_or conversation_id "no-conv") (doc_id_at env w);
                 res_pages_count := length pages |}, w').
Proof.
  intros Henv Hopen Hfile Hraw Hrender. rewrite process_pdf_to_gcs_read. cbn zeta.
  rewrite read_file_run, Hopen. cbn [fst at_open extend files]. rewrite Hfile.
  destruct raw as [|b raw]; [done|].
  unfold mbind at 1, M_bind at 1. rewrite _log_run.
  unfold mbind at 1, M_bind at 1. rewrite _now_iso_run.
  unfold mbind at 1, M_bind at 1.
  match goal with |- context [gcs_put_and_sign env ?k ?dt ?ct (Some ?m) ?w0] =>
    destruct (gcs_put_and_sign_required env KPdf (str_or conversation_id "no-conv")
                (doc_id_at env w) 0 dt ct m w0 Henv) as (u & w2 & E);
      [done|apply pdf_meta_nonempty|]; cbn [artifact_key] in E; rewrite E
  end.
  unfold mbind at 1, M_bind at 1. rewrite pil_images_from_pdf_bytes_run, Hrender.
  unfold mbind at 1, M_bind at 1. rewrite _log_run.
  unfold mbind at 1, M_bind at 1.
  match goal with |- context [process_pages env ?c ?dd ?pk name 1 pages ?w0] =>
    destruct (process_pages_required env c dd pk name pages 1 w0 Henv) as (w3 & ->)
  end.
  by eexists.
Qed.

Lemma page_uploads_images_stored (env : Env) (conv d pk name : string) (pages : list Image)
    (details : list (string * string * option Exn)) (i : nat) (up : Upload) :
  up ∈ page_uploads env conv d pk name i pages details →
  up_content_type up = png → up_fault up = None.
Proof.
  revert details i. induction pages as [|img pages IH]; intros [|[[t a] f] details] i;
    cbn; try by intros ?%elem_of_nil.
  rewrite !elem_of_cons. intros [-> | [-> | H]]; [done|done|]. by eapply IH.
Qed.

(** A refused page-image upload ends the ingestion: it is the last upload
    made and its fault is what the ingestion raises. *)
Lemma refused_image_ends_ingestion (env : Env) (conversation_id path name : string)
    (w w' : World) (r : Outcome IngestResult) :
  process_pdf_to_gcs env conversation_id path name w = (r, w') →
  ∃ evs, history w' = history w ++ evs
    ∧ ∀ up e, up ∈ uploads evs → up_content_type up = png → up_fault up = Some e →
        r = Raise e ∧ last (uploads evs) = Some up.
Proof.
  intros H. apply process_pdf_to_gcs_spec in H as (evs & [Hh _] & _ & Hok & Hraise).
  exists evs. split; [done|]. intros up e Hin Hct Hf.
  destruct r as [res|e0].
  - destruct (Hok res eq_refl) as (raw & t & pages & details & _ & _ & _ & _ & _ & U).
    rewrite U in Hin. apply elem_of_cons in Hin as [-> | Hin]; [done|].
    apply page_uploads_images_stored in Hin; [congruence|done].
  - destruct (Hraise e0 eq_refl) as [Hpdf | (raw & t & pages & rest & U & A)].
    + rewrite Forall_forall in Hpdf. specialize (Hpdf up Hin). by rewrite Hct in Hpdf.
    + destruct A as (k & img & details & f & _ & _ & -> & Hfault).
      rewrite U in Hin |- *.
      apply elem_of_cons in Hin as [-> | Hin]; [done|].
      apply elem_of_app in Hin as [Hin | Hin].
      * apply page_uploads_images_stored in Hin; [congruence|done].
      * apply list_elem_of_singleton in Hin as ->. cbn in Hf.
        split; [by rewrite (Hfault e Hf)|].
        by rewrite app_comm_cons, last_snoc.
Qed.

(** C2. Failure policy of per-page ingestion.
    (1) If uploading the image of a page raises, the loop raises the same
        exception at once: the handler-free call aborts the ingestion and
        nothing is done for the remaining pages.
    (2) If the image is uploaded, the page always completes and the loop
        goes on with the next page: the page makes its image upload and then
        its text upload; when text extraction raises, the text uploaded is
        empty and a warning goes to [_log]; when the text upload is refused,
        the exception is caught and a warning goes to [_log] (which prints
        when [DEBUG_LOG] is on).
    (3) In any ingestion, a refused page-image upload is the last upload
        made, and the ingestion raises its fault.
    (4) When only page-text uploads may fail, a readable non-empty document
        that renders to N pages is ingested to the end and reports N pages,
        whatever text extraction and the text uploads do. *)
Theorem page_failure_policy (env : Env) (conv d pk name : string) (i : nat) (img : Image)
    (rest : list Image) (w : World) :
  let put_image :=
    gcs_put_and_sign env (img_key conv d i)
      (png_bytes_with_meta env img (page_meta conv d pk name i)) "image/png"
      (Some (page_meta conv d pk name i)) w in
  (∀ e, put_image.1 = Raise e →
     process_pages env conv d pk name i (img :: rest) w = (Raise e, put_image.2))
  ∧ (is_ok put_image.1 = true →
     ∃ w3 evs detail,
       process_page env conv d pk name i img w = (Ok tt, w3)
       ∧ process_pages env conv d pk name i (img :: rest) w
         = process_pages env conv d pk name (S i) rest w3
       ∧ grows w w3 evs
       ∧ uploads evs = [image_upload env conv d pk name i img None;
                        text_upload env conv d pk name i detail]
       ∧ (∀ e w', ocr_image_to_text env img put_image.2 = (Raise e, w') →
            up_data (text_upload env conv d pk name i detail) = []
            ∧ logged env (LogOcrWarn i e) ⊆ evs)
       ∧ (∀ e, up_fault (text_upload env conv d pk name i detail) = Some e →
            logged env (LogTextUploadWarn i (txt_key conv d i) e) ⊆ evs))
  ∧ (∀ conversation_id path fname w0 w0' r,
       process_pdf_to_gcs env conversation_id path fname w0 = (r, w0') →
       ∃ evs, history w0' = history w0 ++ evs
         ∧ ∀ up e, up ∈ uploads evs → up_content_type up = png → up_fault up = Some e →
             r = Raise e ∧ last (uploads evs) = Some up)
  ∧ (only_text_may_fail env →
     ∀ conversation_id path fname w0 raw pages,
       open_fault env (history (at_open env w0)) path = None →
       files w0 !! path = Some raw → raw ≠ [] →
       (∀ h, convert_from_bytes env h raw 400 = Ok pages) →
       ∃ w0', process_pdf_to_gcs env conversation_id path fname w0
              = (Ok {| res_conversation_id := str_or conversation_id "no-conv";
                       res_doc_id := doc_id_at env w0;
                       res_pdf_key := pdf_key (str_or conversation_id "no-conv")
                                        (doc_id_at env w0);
                       res_pages_count := length pages |}, w0')).
Proof.
  cbn zeta.
  destruct (gcs_put_and_sign env (img_key conv d i) _ _ _ w) as [r1 w1] eqn:E1.
  cbn [fst snd]. split_and!.
  - intros e ->. by apply image_failure_aborts.
  - intros Hok. destruct r1 as [u|e]; [|done].
    by apply (optional_failures_continue env conv d pk name i img rest w w1 u).
  - intros. by eapply refused_image_ends_ingestion.
  - intros. by eapply required_ok_completes.
Qed.

Lemma demo_env_only_text_may_fail (url : option string) (reply : Outcome Response) :
  only_text_may_fail (demo_env url reply None).
Proof.
  split; intros h k; cbn.
  - destruct (String.eqb k _) eqn:E; [right|by left].
    apply String.eqb_eq in E as ->. by exists "no-conv", "aaaaaaaaaaaaaaaa", 2%nat.
  - by left.
Defined.

Lemma page_failure_policy_witness :
  only_text_may_fail (demo_env None (Raise (LibError "unused")) None)
  ∧ ∃ w', process_pdf_to_gcs (demo_env None (Raise (LibError "unused")) None) ""
            "/tmp/upload.pdf" "report.pdf" demo_world
          = (Ok {| res_conversation_id := "no-conv";
                   res_doc_id := doc_id_at (demo_env None (Raise (LibError "unused")) None)
                                   demo_world;
                   res_pdf_key := pdf_key "no-conv"
                                    (doc_id_at (demo_env None (Raise (LibError "unused")) None)
                                       demo_world);
                   res_pages_count := 2 |}, w').
Proof.
  split; [apply demo_env_only_text_may_fail|].
  refine (proj2 (proj2 (proj2
            (page_failure_policy (demo_env None (Raise (LibError "unused")) None)
               "" "" "" "" 0 (Raster "RGB" 1 1 0) [] demo_world)))
            (demo_env_only_text_may_fail _ _) "" "/tmp/upload.pdf" "report.pdf" demo_world
            ["%"%byte; "P"%byte; "D"%byte; "F"%byte] two_pages _ _ _ _); try done.
Defined.

(** ** Enrichment of the downstream answer *)

Section Enrichment.
Context (env : Env).

Lemma gcs_sign_only_run (key : string) (w : World) :
  gcs_sign_only env key w
  = (signed_url env (history w) key (SIGNED_URL_TTL_MIN env),
     extend w [EvSign key (signed_url env (history w) key (SIGNED_URL_TTL_MIN env))]).
Proof.
  unfold gcs_sign_only, generate_signed_url. unfold_monad. cbn.
  by destruct (signed_url env (history w) key (SIGNED_URL_TTL_MIN env)).
Qed.

Lemma blob_reload_run (key : string) (w : World) :
  blob_reload env key w
  = (reload_outcome env w key, extend w [EvReload key (reload_outcome env w key)]).
Proof.
  unfold blob_reload, reload_outcome. unfold_monad. cbn.
  destruct (reload_fault env (history w) key); [done|].
  by destruct (bucket w !! key).
Qed.

Lemma signings_app (a b : list Event) : signings (a ++ b) = signings a ++ signings b.
Proof. apply omap_app. Qed.

Lemma reloads_app (a b : list Event) : reloads (a ++ b) = reloads a ++ reloads b.
Proof. apply omap_app. Qed.

Lemma signings_logged (m : LogMsg) : signings (logged env m) = [].
Proof. unfold logged. by destruct (DEBUG_LOG env). Qed.

Lemma reloads_logged (m : LogMsg) : reloads (logged env m) = [].
Proof. unfold logged. by destruct (DEBUG_LOG env). Qed.

(** The first loop asks for one signature per usable key, in the order of
    [pages_used], whatever the earlier answers were, and returns the URLs of
    the requests that succeeded. *)
Lemma sign_pages_spec (ks : list JVal) (acc : list JVal) (w : World) :
  ∃ evs,
    sign_pages env ks acc w = (Ok (acc ++ signed_of (signings evs)), extend w evs)
    ∧ (signings evs).*1 = omap page_key_of ks
    ∧ reloads evs = [].
Proof.
  revert acc w. induction ks as [|k ks IH]; intros acc w; cbn [sign_pages].
  - exists []. by rewrite extend_nil, app_nil_r.
  - unfold mbind at 1, M_bind at 1, try_except at 1. cbn [omap].
    destruct (page_key_of k) as [key|] eqn:Hk.
    + unfold mbind at 1, M_bind at 1. rewrite gcs_sign_only_run.
      destruct (signed_url env (history w) key (SIGNED_URL_TTL_MIN env)) as [u|e] eqn:Hs.
      * unfold mret at 1, M_ret at 1.
        destruct (IH (acc ++ [JStr u]) (extend w [EvSign key (Ok u)]))
          as (evs & -> & K & R).
        exists (EvSign key (Ok u) :: evs). rewrite extend_extend. split_and!.
        -- unfold signed_of. cbn. by rewrite <- app_assoc.
        -- cbn. rewrite Hk. f_equal. exact K.
        -- done.
      * unfold mbind at 1, M_bind at 1. rewrite _log_run.
        unfold mret at 1, M_ret at 1. rewrite extend_extend.
        destruct (IH acc (extend w ([EvSign key (Raise e)] ++ logged env (LogSignWarn k e))))
          as (evs & -> & K & R).
        exists ([EvSign key (Raise e)] ++ logged env (LogSignWarn k e) ++ evs).
        rewrite extend_extend, <- app_assoc. split_and!.
        -- by rewrite !signings_app, signings_logged.
        -- rewrite !signings_app, signings_logged. cbn. rewrite Hk. f_equal. exact K.
        -- by rewrite !reloads_app, reloads_logged.
    + unfold mret at 1, M_ret at 1.
      destruct (IH acc w) as (evs & -> & K & R). exists evs.
      split_and!; [done| |done]. cbn. rewrite Hk. exact K.
Qed.

(** The second loop does the same with the stored metadata; every answer it
    uses is the metadata of the object the bucket holds under the key. *)
Lemma fetch_page_info_spec (ks : list JVal) (acc : list JVal) (w : World) :
  ∃ evs,
    fetch_page_info env ks acc w = (Ok (acc ++ infos_of (reloads evs)), extend w evs)
    ∧ (reloads evs).*1 = omap page_key_of ks
    ∧ signings evs = []
    ∧ Forall (λ a, ∀ m, a.2 = Ok m →
                ∃ b, bucket w !! a.1 = Some b ∧ blob_metadata b = m) (reloads evs).
Proof.
  revert acc w. induction ks as [|k ks IH]; intros acc w; cbn [fetch_page_info].
  - exists []. by rewrite extend_nil, app_nil_r.
  - unfold mbind at 1, M_bind at 1, try_except at 1. cbn [omap].
    destruct (page_key_of k) as [key|] eqn:Hk.
    + unfold mbind at 1, M_bind at 1. rewrite blob_reload_run.
      destruct (reload_outcome env w key) as [m|e] eqn:Hr.
      * unfold mret at 1, M_ret at 1.
        destruct (IH (acc ++ [page_info key m]) (extend w [EvReload key (Ok m)]))
          as (evs & -> & K & S & B).
        exists (EvReload key (Ok m) :: evs). rewrite extend_extend. split_and!.
        -- unfold infos_of. cbn. by rewrite <- app_assoc.
        -- cbn. rewrite Hk. f_equal. exact K.
        -- done.
        -- cbn. apply Forall_cons_2; [|done]. cbn. intros m' [= <-].
           unfold reload_outcome in Hr. repeat case_match; simplify_eq. eauto.
      * unfold mbind at 1, M_bind at 1. rewrite _log_run.
        unfold mret at 1, M_ret at 1. rewrite extend_extend.
        destruct (IH acc (extend w ([EvReload key (Raise e)] ++ logged env (LogMetaWarn k e))))
          as (evs & -> & K & S & B).
        exists ([EvReload key (Raise e)] ++ logged env (LogMetaWarn k e) ++ evs).
        rewrite extend_extend, <- app_assoc. split_and!.
        -- by rewrite !reloads_app, reloads_logged.
        -- rewrite !reloads_app, reloads_logged. cbn. rewrite Hk. f_equal. exact K.
        -- by rewrite !signings_app, signings_logged.
        -- rewrite !reloads_app, reloads_logged. cbn. by apply Forall_cons_2.
    + unfold mret at 1, M_ret at 1.
      destruct (IH acc w) as (evs & -> & K & S & B). exists evs.
      split_and!; [done| |done|done]. cbn. rewrite Hk. exact K.
Qed.

End Enrichment.

(** The post-processing of a dictionary whose [pages_used] is a list: both
    loops run over the whole list and both fields are set. *)
Lemma attach_pages_run (env : Env) (d : gmap string JVal) (ks : list JVal) (w : World) :
  d !! "pages_used" = Some (JList ks) →
  ∃ evs1 evs2,
    sign_pages env ks [] w = (Ok (signed_of (signings evs1)), extend w evs1)
    ∧ fetch_page_info env ks [] (extend w evs1)
      = (Ok (infos_of (reloads evs2)), extend w (evs1 ++ evs2))
    ∧ attach_pages env (JDict d) w
      = (Ok (JDict (<["page_info" := JList (infos_of (reloads evs2))]>
                    (<["page_image_urls" := JList (signed_of (signings evs1))]> d))),
         extend w (evs1 ++ evs2)).
Proof.
  intros Hd.
  destruct (sign_pages_spec env ks [] w) as (evs1 & S1 & _).
  destruct (fetch_page_info_spec env ks [] (extend w evs1)) as (evs2 & S2 & _).
  rewrite extend_extend in S2. cbn [app] in S1, S2.
  exists evs1, evs2. split_and!; [done|done|].
  unfold attach_pages, try_except. rewrite Hd.
  assert ((if truthy (JList ks) then JList ks else JList []) = JList ks) as ->
    by (by destruct ks).
  unfold mbind at 1, M_bind at 1. rewrite S1.
  unfold mbind at 1, M_bind at 1. by rewrite S2.
Qed.

Lemma post_run (env : Env) (url : string) (payload : gmap string JVal)
    (headers : gmap string string) (timeout : Z) (w : World) :
  post env url payload headers timeout w
  = (requests_post env (history w) url payload headers timeout,
     extend w [EvPost url payload headers timeout
                 (requests_post env (history w) url payload headers timeout)]).
Proof.
  unfold post. unfold_monad. cbn.
  by destruct (requests_post env (history w) url payload headers timeout).
Qed.

(** C1. When the downstream service answers with a dictionary whose
    [pages_used] is a list, [call_gpu_backend] returns that dictionary with
    the two enrichment fields added and every other field (the textual answer
    among them) untouched, and raises nothing.  Each pass makes one request
    per usable key, in the order of [pages_used], whether or not earlier
    requests failed; [page_image_urls] holds the URLs of exactly the signing
    requests that succeeded and [page_info] the records of exactly the
    metadata requests that succeeded, both in request order, so a failing key
    drops its own entry and no other. *)
Theorem enrichment_is_per_key (env : Env) (conversation_id human : string)
    (doc_id : option string) (w : World) (resp : Response) (body : gmap string JVal)
    (ks : list JVal) :
  url_configured (GPU_BACKEND_URL env) = true →
  downstream_reply env conversation_id human doc_id w = Ok resp →
  raise_for_status resp = None →
  json resp = Ok (JDict body) →
  body !! "pages_used" = Some (JList ks) →
  ∃ evs urls infos w',
    call_gpu_backend env conversation_id human doc_id w
    = (Ok (JDict (<["page_info" := JList infos]>
                  (<["page_image_urls" := JList urls]> body))), w')
    ∧ history w' = history w ++ evs
    ∧ (signings evs).*1 = omap page_key_of ks
    ∧ urls = JStr <$> omap (λ a, ok_value a.2) (signings evs)
    ∧ (reloads evs).*1 = omap page_key_of ks
    ∧ infos = omap (λ a, page_info a.1 <$> ok_value a.2) (reloads evs)
    ∧ ∀ field, field ≠ "page_image_urls" → field ≠ "page_info" →
        (<["page_info" := JList infos]> (<["page_image_urls" := JList urls]> body)) !! field
        = body !! field.
Proof.
  intros Hc Hreply Hstatus Hjson Hpages.
  unfold call_gpu_backend. rewrite Hc. cbn [negb].
  unfold mbind at 1, M_bind at 1. rewrite _log_run.
  unfold try_except.
  unfold mbind at 1, M_bind at 1. rewrite post_run. cbn [history extend].
  fold (history_at_post env conversation_id human doc_id w).
  fold (downstream_reply env conversation_id human doc_id w).
  rewrite Hreply. rewrite Hstatus.
  unfold mbind at 1, M_bind at 1, mret at 1, M_ret at 1.
  unfold mbind at 1, M_bind at 1, lift at 1. rewrite Hjson.
  unfold mbind at 1, M_bind at 1.
  match goal with |- context [attach_pages env (JDict body) ?w0] =>
    destruct (attach_pages_run env body ks w0 Hpages) as (evs1 & evs2 & S1 & S2 & ->);
    destruct (sign_pages_spec env ks [] w0) as (evs1' & S1' & K1 & R1);
    destruct (fetch_page_info_spec env ks [] (extend w0 evs1)) as (evs2' & S2' & K2 & R2 & _)
  end.
  rewrite S1 in S1'. injection S1' as E1 W1. apply app_inv_head in W1 as <-.
  rewrite S2 in S2'. injection S2' as E2 W2.
  rewrite !app_assoc in W2. apply app_inv_head in W2 as <-.
  unfold mbind at 1, M_bind at 1. rewrite _log_run. unfold mret, M_ret.
  eexists (logged env _ ++ [_] ++ evs1 ++ evs2 ++ logged env _), _, _, _.
  split_and!; [reflexivity| | | | | |].
  - cbn. by rewrite <- !app_assoc.
  - rewrite !signings_app, !signings_logged, R2. cbn. by rewrite !app_nil_r.
  - rewrite !signings_app, !signings_logged, R2. cbn. by rewrite !app_nil_r.
  - rewrite !reloads_app, !reloads_logged, R1. cbn. by rewrite !app_nil_r.
  - rewrite !reloads_app, !reloads_logged, R1. cbn. by rewrite !app_nil_r.
  - intros field H1 H2. by rewrite !lookup_insert_ne.
Qed.

Lemma page_key_of_None (k : JVal) :
  page_key_of k = None ↔ ∀ s, k = JStr s → s = "".
Proof.
  split.
  - intros H s ->. cbn in H. by destruct s.
  - intros H. destruct k as [| | |s| |]; try done.
    rewrite (H s eq_refl). done.
Qed.

Lemma sign_pages_cons (env : Env) (k : JVal) (ks acc : list JVal) (w : World) :
  sign_pages env (k :: ks) acc w
  = match try_except
            (match page_key_of k with
             | Some key => u ← gcs_sign_only env key; mret (acc ++ [JStr u])
             | None => mret acc
             end)
            (λ e, _log env (LogSignWarn k e);; mret acc) w with
    | (Ok a, w') => sign_pages env ks a w'
    | (Raise e, w') => (Raise e, w')
    end.
Proof. done. Qed.

Lemma fetch_page_info_cons (env : Env) (k : JVal) (ks acc : list JVal) (w : World) :
  fetch_page_info env (k :: ks) acc w
  = match try_except
            (match page_key_of k with
             | Some key =>
                 metadata ← blob_reload env key;
                 mret (acc ++ [page_info key metadata])
             | None => mret acc
             end)
            (λ e, _log env (LogMetaWarn k e);; mret acc) w with
    | (Ok a, w') => fetch_page_info env ks a w'
    | (Raise e, w') => (Raise e, w')
    end.
Proof. done. Qed.

Lemma sign_pages_skip (env : Env) (ks1 ks2 : list JVal) (k : JVal) (acc : list JVal)
    (w : World) :
  page_key_of k = None →
  sign_pages env (ks1 ++ k :: ks2) acc w = sign_pages env (ks1 ++ ks2) acc w.
Proof.
  intros Hk. revert acc w. induction ks1 as [|k1 ks1 IH]; intros acc w; cbn [app].
  - rewrite sign_pages_cons. by rewrite Hk.
  - rewrite !sign_pages_cons. by destruct (try_except _ _ w) as [[a|e] w1].
Qed.

Lemma fetch_page_info_skip (env : Env) (ks1 ks2 : list JVal) (k : JVal) (acc : list JVal)
    (w : World) :
  page_key_of k = None →
  fetch_page_info env (ks1 ++ k :: ks2) acc w = fetch_page_info env (ks1 ++ ks2) acc w.
Proof.
  intros Hk. revert acc w. induction ks1 as [|k1 ks1 IH]; intros acc w; cbn [app].
  - rewrite fetch_page_info_cons. by rewrite Hk.
  - rewrite !fetch_page_info_cons. by destruct (try_except _ _ w) as [[a|e] w1].
Qed.

(** C10. An entry of [pages_used] that is not a non-empty string is skipped
    by both passes: each loop behaves on the list exactly as on the list
    without the entry (same result, same requests, no warning, no error), and
    the post-processing returns the two fields computed from the remaining
    keys in their original order. *)
Theorem invalid_entries_skipped (env : Env) (ks1 ks2 : list JVal) (k : JVal) :
  (∀ s, k = JStr s → s = "") →
  (∀ acc w, sign_pages env (ks1 ++ k :: ks2) acc w = sign_pages env (ks1 ++ ks2) acc w)
  ∧ (∀ acc w, fetch_page_info env (ks1 ++ k :: ks2) acc w
              = fetch_page_info env (ks1 ++ ks2) acc w)
  ∧ (∀ (d : gmap string JVal) w,
       d !! "pages_used" = Some (JList (ks1 ++ k :: ks2)) →
       ∃ evs1 evs2,
         sign_pages env (ks1 ++ ks2) [] w = (Ok (signed_of (signings evs1)), extend w evs1)
         ∧ fetch_page_info env (ks1 ++ ks2) [] (extend w evs1)
           = (Ok (infos_of (reloads evs2)), extend w (evs1 ++ evs2))
         ∧ attach_pages env (JDict d) w
           = (Ok (JDict (<["page_info" := JList (infos_of (reloads evs2))]>
                         (<["page_image_urls" := JList (signed_of (signings evs1))]> d))),
              extend w (evs1 ++ evs2))
         ∧ (signings evs1).*1 = omap page_key_of (ks1 ++ ks2)
         ∧ (reloads evs2).*1 = omap page_key_of (ks1 ++ ks2)).
Proof.
  intros Hk%page_key_of_None. split_and!.
  - intros. by apply sign_pages_skip.
  - intros. by apply fetch_page_info_skip.
  - intros d w Hd.
    destruct (attach_pages_run env d _ w Hd) as (evs1 & evs2 & S1 & S2 & A).
    rewrite sign_pages_skip in S1 by done. rewrite fetch_page_info_skip in S2 by done.
    destruct (sign_pages_spec env (ks1 ++ ks2) [] w) as (evs1' & S1' & K1 & _).
    rewrite S1 in S1'. injection S1' as _ W1. apply app_inv_head in W1 as <-.
    destruct (fetch_page_info_spec env (ks1 ++ ks2) [] (extend w evs1))
      as (evs2' & S2' & K2 & _).
    rewrite S2 in S2'. injection S2' as _ W2.
    rewrite !app_assoc in W2. apply app_inv_head in W2 as <-.
    by exists evs1, evs2.
Qed.

(** ** Running the enrichment on a stocked bucket *)

(** Signing fails for page 2 and the metadata of page 3 is missing: each
    list lacks that one entry and keeps the others in order. *)
Example demo_answer_urls :
  dict_field "page_image_urls" demo_answer.1
  = Some (JList [JStr "https://storage.example/pages/c1/d1/page_1.png";
                 JStr "https://storage.example/pages/c1/d1/page_3.png";
                 JStr "https://storage.example/pages/c1/d1/page_4.png"]).
Proof. vm_compute. reflexivity. Qed.

Example demo_answer_infos :
  dict_field "page_info" demo_answer.1
  = Some (JList [page_info "pages/c1/d1/page_1.png" (blob_metadata (stored_page 1));
                 page_info "pages/c1/d1/page_2.png" (blob_metadata (stored_page 2));
                 page_info "pages/c1/d1/page_4.png" (blob_metadata (stored_page 4))]).
Proof. vm_compute. reflexivity. Qed.

Example demo_answer_text : dict_field "ai" demo_answer.1 = Some (JStr "See page 1.").
Proof. vm_compute. reflexivity. Qed.

Example demo_page_info :
  page_info "pages/c1/d1/page_2.png" (blob_metadata (stored_page 2))
  = JDict {[ "page_key" := JStr "pages/c1/d1/page_2.png";
             "pdf_name" := JStr "report.pdf"; "page_number" := JStr "2" ]}.
Proof. vm_compute. reflexivity. Qed.

Lemma enrichment_is_per_key_witness :
  ∃ evs urls infos w',
    call_gpu_backend answering_env "c1" "what is on page 1?" (Some "d1") stocked_world
    = (Ok (JDict (<["page_info" := JList infos]>
                  (<["page_image_urls" := JList urls]> demo_reply))), w')
    ∧ history w' = history stocked_world ++ evs
    ∧ (signings evs).*1
      = omap page_key_of
          [JStr "pages/c1/d1/page_1.png"; JNull; JStr "pages/c1/d1/page_2.png"; JStr "";
           JStr "pages/c1/d1/page_3.png"; JNum 4; JStr "pages/c1/d1/page_4.png"]
    ∧ urls = JStr <$> omap (λ a, ok_value a.2) (signings evs)
    ∧ (reloads evs).*1
      = omap page_key_of
          [JStr "pages/c1/d1/page_1.png"; JNull; JStr "pages/c1/d1/page_2.png"; JStr "";
           JStr "pages/c1/d1/page_3.png"; JNum 4; JStr "pages/c1/d1/page_4.png"]
    ∧ infos = omap (λ a, page_info a.1 <$> ok_value a.2) (reloads evs)
    ∧ ∀ field, field ≠ "page_image_urls" → field ≠ "page_info" →
        (<["page_info" := JList infos]> (<["page_image_urls" := JList urls]> demo_reply))
          !! field
        = demo_reply !! field.
Proof.
  apply (enrichment_is_per_key answering_env "c1" "what is on page 1?" (Some "d1")
           stocked_world demo_response demo_reply).
  - reflexivity.
  - reflexivity.
  - reflexivity.
  - reflexivity.
  - vm_compute. reflexivity.
Defined.

Lemma invalid_entries_skipped_witness :
  (∀ s, JNum 4 = JStr s → s = "")
  ∧ sign_pages answering_env
      ([JStr "pages/c1/d1/page_1.png"] ++ JNum 4 :: [JStr "pages/c1/d1/page_4.png"]) []
      stocked_world
    = sign_pages answering_env
        ([JStr "pages/c1/d1/page_1.png"] ++ [JStr "pages/c1/d1/page_4.png"]) []
        stocked_world.
Proof.
  assert (H : ∀ s, JNum 4 = JStr s → s = "") by (intros s [=]).
  split; [exact H|].
  exact (proj1 (invalid_entries_skipped answering_env [JStr "pages/c1/d1/page_1.png"]
                  [JStr "pages/c1/d1/page_4.png"] (JNum 4) H) [] stocked_world).
Defined.

Lemma stub_answer_when_unconfigured_witness :
  call_gpu_backend (demo_env None (Raise (LibError "unused")) None) "c1" "hello" None
    stocked_world
  = (Ok (JDict {[ "ai" := JStr "(stub) GPU_BACKEND_URL not configured.";
                  "conversation_id" := JStr "c1" ]}), stocked_world).
Proof.
  apply stub_answer_when_unconfigured. left. reflexivity.
Defined.

Lemma downstream_failure_is_bad_gateway_witness :
  (call_gpu_backend unreachable_env "c1" "hello" None stocked_world).1
  = Raise (HTTPException 502 ("GPU backend error: " +:+ exn_str (LibError "Connection refused")))
  ∧ (call_gpu_backend unreachable_env "c1" "hello" None stocked_world).1
    ≠ Ok (stub_answer "c1").
Proof.
  apply (downstream_failure_is_bad_gateway unreachable_env "c1" "hello" None stocked_world
           (LibError "Connection refused")).
  - reflexivity.
  - left. reflexivity.
Defined.

Lemma empty_document_rejected_witness :
  ∃ w',
    process_pdf_to_gcs answering_env "c1" "/tmp/upload.pdf" "report.pdf" empty_upload_world
    = (Raise (HTTPException 400 "File is empty."), w')
    ∧ bucket w' = bucket empty_upload_world
    ∧ ∃ evs, history w' = history empty_upload_world ++ evs ∧ uploads evs = [].
Proof.
  apply empty_document_rejected.
  - reflexivity.
  - vm_compute. reflexivity.
Defined.

(** ** The conversation identifier outside ingestion *)

(** C6 fails as stated: on a request with an empty conversation identifier,
    the stub answer returns "" as [conversation_id], and with an endpoint
    configured the request sent downstream carries "" while the artifacts
    of the same request are filed under "no-conv". *)
Lemma blank_conversation_reaches_downstream :
  (chat (demo_env None (Raise (LibError "unused")) None) "hello" "" None "" stocked_world).1
  = Ok (JDict {[ "ai" := JStr "(stub) GPU_BACKEND_URL not configured.";
                 "conversation_id" := JStr "" ]})
  ∧ omap post_of
      (history (chat answering_env "hello" "" (Some demo_upload) "report.pdf"
                  stocked_world).2)
    = [("http://gpu.internal:8000/ingest-and-answer",
        {[ "conversation_id" := JStr ""; "human" := JStr "hello";
           "doc_id" := JStr "aaaaaaaaaaaaaaab" ]})]
  ∧ up_key <$> uploads
      (history (chat answering_env "hello" "" (Some demo_upload) "report.pdf"
                  stocked_world).2)
    = ["pdfs/no-conv/aaaaaaaaaaaaaaab.pdf";
       "pages/no-conv/aaaaaaaaaaaaaaab/page_1.png";
       "text/no-conv/aaaaaaaaaaaaaaab/page_1.txt";
       "pages/no-conv/aaaaaaaaaaaaaaab/page_2.png";
       "text/no-conv/aaaaaaaaaaaaaaab/page_2.txt"].
Proof. split_and!; vm_compute; reflexivity. Qed.

(** * Further properties of the code *)

(** ** Normalisation of the recognised text *)

Lemma chars_rev_app (s1 s2 : string) :
  chars (String.rev_app s1 s2) = rev (chars s1) ++ chars s2.
Proof.
  revert s2. induction s1 as [|c s1 IH]; intros s2; cbn; [done|].
  rewrite IH. cbn. by rewrite <- app_assoc.
Qed.

Lemma chars_rev (s : string) : chars (String.rev s) = rev (chars s).
Proof. unfold String.rev. by rewrite chars_rev_app, app_nil_r. Qed.

Lemma chars_lstrip_by (p : ascii → bool) (s : string) :
  chars (lstrip_by p s) = skip_while p (chars s).
Proof. induction s as [|c s IH]; cbn; [done|]. by destruct (p c). Qed.

Lemma chars_rstrip_by (p : ascii → bool) (s : string) :
  chars (rstrip_by p s) = rev (skip_while p (rev (chars s))).
Proof. unfold rstrip_by. by rewrite chars_rev, chars_lstrip_by, chars_rev. Qed.

Lemma skip_while_suffix {A} (p : A → bool) (l : list A) :
  ∃ k, l = k ++ skip_while p l ∧ Forall (λ x, p x = true) k.
Proof.
  induction l as [|x l (k & E & F)]; cbn; [by exists []|].
  destruct (p x) eqn:Hp; [|by exists []].
  exists (x :: k). split; [by rewrite E at 1|by constructor].
Qed.

Lemma skip_while_head {A} (p : A → bool) (l : list A) (x : A) (l' : list A) :
  skip_while p l = x :: l' → p x = false.
Proof.
  induction l as [|y l IH]; cbn; [done|].
  destruct (p y) eqn:Hp; [done|]. by intros [= <- <-].
Qed.

(** Trimming at the end keeps a prefix, drops only elements that satisfy
    [p], and leaves a last element that does not. *)
Lemma rev_skip_while_rev {A} (p : A → bool) (l : list A) :
  ∃ k, l = rev (skip_while p (rev l)) ++ k
       ∧ Forall (λ x, p x = true) k
       ∧ ∀ x, last (rev (skip_while p (rev l))) = Some x → p x = false.
Proof.
  destruct (skip_while_suffix p (rev l)) as (k & E & F).
  exists (rev k). split_and!.
  - apply (f_equal (@rev A)) in E. by rewrite rev_involutive, rev_app_distr in E.
  - by apply Forall_rev.
  - intros x Hx. destruct (skip_while p (rev l)) as [|y l'] eqn:Hs; [done|].
    cbn in Hx. rewrite last_snoc in Hx. injection Hx as <-.
    by eapply skip_while_head.
Qed.








(** ** Errors of text extraction *)



(** ** Sizes after preprocessing *)

(** X3. The image handed to the recogniser is always in RGB mode.  An image
    whose larger dimension is at least 1600 keeps its size.  For a smaller
    image with positive sizes, the dimension that was the larger one becomes
    1599 or 1600: the upscaling falls short of the threshold by at most one
    pixel. *)
Theorem ocr_preprocess_sizes (img im : Image) :
  ocr_preprocess img = Ok im →
  im_mode im = "RGB"
  ∧ ((1600 ≤ Z.max (im_size img).1 (im_size img).2)%Z → im_size im = im_size img)
  ∧ ((1 ≤ (im_size img).2 ≤ (im_size img).1)%Z → ((im_size img).1 < 1600)%Z →
     (im_size im).1 = 1599%Z ∨ (im_size im).1 = 1600%Z)
  ∧ ((1 ≤ (im_size img).1 ≤ (im_size img).2)%Z → ((im_size img).2 < 1600)%Z →
     (im_size im).2 = 1599%Z ∨ (im_size im).2 = 1600%Z).
Proof.
  intros H. split; [by eapply ocr_preprocess_rgb|]. split_and!.
  - intros Hl. rewrite ocr_preprocess_large in H by done. by injection H as <-.
  - intros Hh Hw. revert H. unfold ocr_preprocess. cbn [im_size].
    destruct (im_size img) as [w h]. cbn [fst snd] in *.
    rewrite Z.max_l by lia.
    rewrite (proj2 (Z.ltb_lt _ _) Hw).
    rewrite (proj2 (Z.eqb_neq _ _)) by lia.
    fold (upscaled w w). fold (upscaled h w).
    destruct (upscaled_larger_dimension w) as [-> | ->]; [lia| |];
      destruct (upscaled h w); intros [= <-]; cbn; auto.
  - intros Hw Hh. revert H. unfold ocr_preprocess. cbn [im_size].
    destruct (im_size img) as [w h]. cbn [fst snd] in *.
    rewrite Z.max_r by lia.
    rewrite (proj2 (Z.ltb_lt _ _) Hh).
    rewrite (proj2 (Z.eqb_neq _ _)) by lia.
    fold (upscaled w h). fold (upscaled h h).
    destruct (upscaled_larger_dimension h) as [-> | ->]; [lia| |];
      destruct (upscaled w h); intros [= <-]; cbn; auto.
Qed.

Lemma ocr_preprocess_sizes_witness :
  im_mode (Resized 1142 1599 (Converted "RGB" (Raster "L" 1100 1540 0))) = "RGB"
  ∧ ((1600 ≤ Z.max (im_size (Raster "L" 1100 1540 0)).1 (im_size (Raster "L" 1100 1540 0)).2)%Z →
     im_size (Resized 1142 1599 (Converted "RGB" (Raster "L" 1100 1540 0)))
     = im_size (Raster "L" 1100 1540 0))
  ∧ ((1 ≤ (im_size (Raster "L" 1100 1540 0)).2 ≤ (im_size (Raster "L" 1100 1540 0)).1)%Z →
     ((im_size (Raster "L" 1100 1540 0)).1 < 1600)%Z →
     (im_size (Resized 1142 1599 (Converted "RGB" (Raster "L" 1100 1540 0)))).1 = 1599%Z
     ∨ (im_size (Resized 1142 1599 (Converted "RGB" (Raster "L" 1100 1540 0)))).1 = 1600%Z)
  ∧ ((1 ≤ (im_size (Raster "L" 1100 1540 0)).1 ≤ (im_size (Raster "L" 1100 1540 0)).2)%Z →
     ((im_size (Raster "L" 1100 1540 0)).2 < 1600)%Z →
     (im_size (Resized 1142 1599 (Converted "RGB" (Raster "L" 1100 1540 0)))).2 = 1599%Z
     ∨ (im_size (Resized 1142 1599 (Converted "RGB" (Raster "L" 1100 1540 0)))).2 = 1600%Z).
Proof.
  apply (ocr_preprocess_sizes (Raster "L" 1100 1540 0)).
  vm_compute. reflexivity.
Defined.

(** ** Document identifiers *)

Lemma chars_length (s : string) : length (chars s) = String.length s.
Proof. induction s as [|c s IH]; cbn; [done|]. by rewrite IH. Qed.

Lemma hex_digits_acc (n : nat) (v : N) (acc : string) :
  chars (hex_digits n v acc) = chars (hex_digits n v "") ++ chars acc.
Proof.
  revert v acc. induction n as [|n IH]; intros v acc; cbn; [done|].
  rewrite IH. rewrite (IH _ (String _ "")). cbn. by rewrite <- app_assoc.
Qed.

Lemma hex_digits_length (n : nat) (v : N) : length (chars (hex_digits n v "")) = n.
Proof.
  revert v. induction n as [|n IH]; intros v; cbn; [done|].
  rewrite hex_digits_acc, length_app, IH. cbn. lia.
Qed.

Lemma hex_digits_S (n : nat) (v : N) :
  chars (hex_digits (S n) v "")
  = chars (hex_digits n (v / 16)%N "") ++ [hex_char (v mod 16)%N].
Proof. cbn. by rewrite hex_digits_acc. Qed.

Lemma hex_digits_split (n m : nat) (v : N) :
  chars (hex_digits (n + m) v "")
  = chars (hex_digits m (v / 16 ^ N.of_nat n)%N "") ++ chars (hex_digits n v "").
Proof.
  revert v. induction n as [|n IH]; intros v.
  - cbn [Nat.add]. change (N.of_nat 0) with 0%N. rewrite N.pow_0_r, N.div_1_r.
    cbn. by rewrite app_nil_r.
  - cbn [Nat.add]. rewrite !hex_digits_S, IH, <- app_assoc.
    do 3 f_equal. rewrite Nat2N.inj_succ, N.pow_succ_r', N.Div0.div_div. done.
Qed.

Lemma chars_str_take (n : nat) (s : string) : chars (str_take n s) = take n (chars s).
Proof.
  revert s. induction n as [|n IH]; intros [|c s]; cbn; try done. by rewrite IH.
Qed.

(** The identifier is the hexadecimal writing of bits 64 to 127 of the UUID. *)
Lemma make_doc_id_high_bits (u : N) :
  make_doc_id u = hex_digits 16 (u / 2 ^ 64)%N "".
Proof.
  apply chars_inj. unfold make_doc_id, uuid_hex.
  rewrite chars_str_take. change 32%nat with (16 + 16)%nat.
  rewrite hex_digits_split. rewrite take_app_length' by (by rewrite hex_digits_length).
  done.
Qed.

(** The value of a hexadecimal digit. *)
Lemma hex_char_value (d : N) :
  (d < 16)%N → N.of_nat (nat_of_ascii (hex_char d)) = (if (d <? 10)%N then d + 48 else d + 87)%N.
Proof.
  intros Hd. destruct d as [|p]; [done|].
  do 4 (try destruct p as [p|p|]); try reflexivity; exfalso; lia.
Qed.

Lemma hex_char_inj (a b : N) :
  (a < 16)%N → (b < 16)%N → hex_char a = hex_char b → a = b.
Proof.
  intros Ha Hb E. pose proof (hex_char_value a Ha) as Va.
  pose proof (hex_char_value b Hb) as Vb. rewrite E in Va. rewrite Va in Vb.
  destruct (a <? 10)%N eqn:A, (b <? 10)%N eqn:B;
    rewrite ?N.ltb_lt, ?N.ltb_ge in A, B; lia.
Qed.

Lemma hex_char_is_hex (d : N) : is_hex_digit (hex_char d) = true.
Proof. unfold hex_char. repeat case_match; done. Qed.

(** Two values have the same [n] hexadecimal digits exactly when they agree
    modulo 16^n. *)
Lemma hex_digits_eq (n : nat) (v v' : N) :
  hex_digits n v "" = hex_digits n v' ""
  ↔ (v mod 16 ^ N.of_nat n = v' mod 16 ^ N.of_nat n)%N.
Proof.
  revert v v'. induction n as [|n IH]; intros v v'.
  - change (N.of_nat 0) with 0%N. rewrite N.pow_0_r, !N.mod_1_r. done.
  - rewrite Nat2N.inj_succ, N.pow_succ_r'.
    rewrite !(N.Div0.mod_mul_r _ 16). split.
    + intros E. apply (f_equal chars) in E. rewrite !hex_digits_S in E.
      apply app_inj_1 in E as [E1 E2]; [|by rewrite !hex_digits_length].
      apply chars_inj, IH in E1. injection E2 as E2.
      apply hex_char_inj in E2; [|by apply N.mod_lt..]. by rewrite E1, E2.
    + intros E.
      pose proof (N.mod_lt v 16 ltac:(done)) as Hv.
      pose proof (N.mod_lt v' 16 ltac:(done)) as Hv'.
      assert (E12 : (v mod 16 = v' mod 16)%N
                    ∧ ((v / 16) mod 16 ^ N.of_nat n = (v' / 16) mod 16 ^ N.of_nat n)%N).
      { revert E Hv Hv'.
        generalize (v mod 16)%N (v' mod 16)%N ((v / 16) mod 16 ^ N.of_nat n)%N
          ((v' / 16) mod 16 ^ N.of_nat n)%N.
        intros; lia. }
      destruct E12 as [E2 E1].
      apply chars_inj. rewrite !hex_digits_S.
      apply IH in E1. by rewrite E1, E2.
Qed.

(** X4. [make_doc_id] always yields 16 lowercase hexadecimal digits, and
    two UUIDs yield the same identifier exactly when they agree on their bits
    64 to 127: the identifier keeps 64 of the 128 bits of the UUID. *)
Theorem make_doc_id_keeps_high_bits (u1 u2 : N) :
  String.length (make_doc_id u1) = 16%nat
  ∧ Forall (λ c, is_hex_digit c = true) (chars (make_doc_id u1))
  ∧ (make_doc_id u1 = make_doc_id u2
     ↔ ((u1 / 2 ^ 64) mod 2 ^ 64 = (u2 / 2 ^ 64) mod 2 ^ 64)%N).
Proof.
  split; [apply make_doc_id_length|]. split.
  - rewrite make_doc_id_high_bits. generalize (u1 / 2 ^ 64)%N. generalize 16%nat.
    intros n. induction n as [|n IH]; intros v; [constructor|].
    rewrite hex_digits_S. apply Forall_app. split; [apply IH|].
    repeat constructor. apply hex_char_is_hex.
  - rewrite !make_doc_id_high_bits, hex_digits_eq. done.
Qed.

(** ** Keys of one ingestion *)

Lemma page_file_inj (i j : nat) (ext : string) :
  "/page_" +:+ str_of_nat i +:+ ext = "/page_" +:+ str_of_nat j +:+ ext → i = j.
Proof.
  intros E. apply (inj (String.app "/page_")) in E.
  apply (f_equal chars) in E. rewrite !chars_app in E. apply app_inv_tail in E.
  apply chars_inj in E. unfold str_of_nat in E. by apply (inj pretty) in E.
Qed.

Lemma img_key_inj (conv d : string) (i j : nat) : img_key conv d i = img_key conv d j → i = j.
Proof.
  unfold img_key. intros E.
  do 4 apply (inj (String.app _)) in E. by apply page_file_inj in E.
Qed.

Lemma txt_key_inj (conv d : string) (i j : nat) : txt_key conv d i = txt_key conv d j → i = j.
Proof.
  unfold txt_key. intros E.
  do 4 apply (inj (String.app _)) in E. by apply page_file_inj in E.
Qed.

Lemma img_key_not_txt_key (c1 c2 d1 d2 : string) (i j : nat) :
  img_key c1 d1 i ≠ txt_key c2 d2 j.
Proof. intros E. by pose proof (kinds_disjoint KPageImage KPageText _ _ _ _ _ _ E). Qed.

Lemma pdf_key_not_img_key (c1 c2 d1 d2 : string) (j : nat) : pdf_key c1 d1 ≠ img_key c2 d2 j.
Proof. intros E. by pose proof (kinds_disjoint KPdf KPageImage _ _ _ _ 0%nat _ E). Qed.

Lemma pdf_key_not_txt_key (c1 c2 d1 d2 : string) (j : nat) : pdf_key c1 d1 ≠ txt_key c2 d2 j.
Proof. intros E. by pose proof (kinds_disjoint KPdf KPageText _ _ _ _ 0%nat _ E). Qed.

Lemma elem_of_page_keys (conv d : string) (a n : nat) (k : string) :
  k ∈ page_keys conv d a n
  ↔ ∃ i, (a ≤ i < a + n)%nat ∧ (k = img_key conv d i ∨ k = txt_key conv d i).
Proof.
  unfold page_keys. rewrite list_elem_of_In, in_flat_map. split.
  - intros (i & Hi & Hk). apply in_seq in Hi. exists i. split; [done|].
    cbn in Hk. destruct Hk as [<- | [<- | []]]; auto.
  - intros (i & Hi & Hk). exists i. split; [by apply in_seq|].
    cbn. destruct Hk as [-> | ->]; auto.
Qed.

Lemma page_keys_NoDup (conv d : string) (a n : nat) : NoDup (page_keys conv d a n).
Proof.
  revert a. induction n as [|n IH]; intros a; [constructor|].
  change (page_keys conv d a (S n))
    with (img_key conv d a :: txt_key conv d a :: page_keys conv d (S a) n).
  apply NoDup_cons_2; [|apply NoDup_cons_2; [|apply IH]].
  - rewrite elem_of_cons. intros [E | (i & Hi & [E | E])%elem_of_page_keys].
    + by apply img_key_not_txt_key in E.
    + apply img_key_inj in E. lia.
    + by apply img_key_not_txt_key in E.
  - intros (i & Hi & [E | E])%elem_of_page_keys.
    + symmetry in E. by apply img_key_not_txt_key in E.
    + apply txt_key_inj in E. lia.
Qed.

Lemma page_keys_length (conv d : string) (a n : nat) :
  length (page_keys conv d a n) = (2 * n)%nat.
Proof.
  unfold page_keys. revert a. induction n as [|n IH]; intros a; cbn; [done|].
  rewrite IH. lia.
Qed.

(** X5. An ingestion that returns never wrote twice to the same key: the
    keys of its uploads (the document, then every page image and page text)
    are pairwise distinct, so no artifact overwrites another one. *)
Theorem ingestion_keys_distinct (env : Env) (conversation_id path name : string)
    (w w' : World) (res : IngestResult) :
  process_pdf_to_gcs env conversation_id path name w = (Ok res, w') →
  ∃ evs, history w' = history w ++ evs
    ∧ length (uploads evs) = (1 + 2 * res_pages_count res)%nat
    ∧ NoDup (up_key <$> uploads evs).
Proof.
  intros H. apply process_pdf_to_gcs_spec in H as (evs & [Hh _] & _ & Hok & _).
  destruct (Hok res eq_refl) as (raw & t & pages & details & _ & _ & _ & -> & L & U).
  exists evs. split; [done|]. cbn [res_pages_count].
  set (conv := str_or conversation_id "no-conv") in *. set (d := doc_id_at env w) in *.
  assert (K : up_key <$> uploads evs = pdf_key conv d :: page_keys conv d 1 (length pages)).
  { rewrite U. cbn. f_equal. by apply page_uploads_keys. }
  split.
  - rewrite <- (length_fmap up_key), K. cbn [length]. by rewrite page_keys_length.
  - rewrite K. apply NoDup_cons_2; [|apply page_keys_NoDup].
    intros (i & _ & [E | E])%elem_of_page_keys.
    + by apply pdf_key_not_img_key in E.
    + by apply pdf_key_not_txt_key in E.
Qed.

Lemma ingestion_keys_distinct_witness :
  ∃ evs, history demo_ingest.2 = history demo_world ++ evs
    ∧ length (uploads evs) = (1 + 2 * res_pages_count demo_result)%nat
    ∧ NoDup (up_key <$> uploads evs).
Proof.
  pose proof demo_ingest_run as H. unfold demo_ingest at 1 in H.
  exact (ingestion_keys_distinct _ _ _ _ _ _ _ H).
Defined.

(** ** What ingestion leaves in the bucket *)

(** [gcs_put_and_sign] touches the bucket at its key only, and when it
    returns the object is there. *)
Lemma gcs_put_and_sign_bucket (env : Env) (key : string) (data : list byte) (ct : string)
    (meta : gmap string string) (w w' : World) (r : Outcome string) :
  meta ≠ ∅ →
  gcs_put_and_sign env key data ct (Some meta) w = (r, w') →
  (bucket w' = bucket w ∨ bucket w' = <[key := stored_blob data ct meta]> (bucket w))
  ∧ (is_ok r = true → bucket w' = <[key := stored_blob data ct meta]> (bucket w)).
Proof.
  intros Hm. unfold gcs_put_and_sign. rewrite bool_decide_eq_false_2 by done.
  unfold upload_from_string, generate_signed_url.
  unfold mbind at 1 2 3 4 5 6 7, M_bind at 1 2 3 4 5 6 7. unfold_monad. cbn.
  destruct (upload_fault env (history w) key) as [e|]; cbn.
  - intros [= <- <-]. split; [by left|done].
  - match goal with |- context [signed_url env ?h key ?t] =>
      destruct (signed_url env h key t) as [u|e] end; cbn.
    + rewrite _log_run. intros [= <- <-]. split; [by right|done].
    + intros [= <- <-]. split; [by right|done].
Qed.

Lemma ocr_image_to_text_bucket (env : Env) (img : Image) (w w' : World) (r : Outcome string) :
  ocr_image_to_text env img w = (r, w') → bucket w' = bucket w.
Proof.
  unfold ocr_image_to_text, tesseract. unfold_monad.
  destruct (ocr_preprocess img) as [im|e]; cbn.
  - destruct (image_to_string env (history w) im (OCR_LANG env) "--psm 4"); cbn;
      by intros [= <- <-].
  - by intros [= <- <-].
Qed.

Section Bucket.
Context (env : Env) (conv d pk name : string).

Lemma process_page_bucket (i : nat) (img : Image) (w w' : World) :
  process_page env conv d pk name i img w = (Ok tt, w') →
  bucket w' !! img_key conv d i = Some (page_blob env conv d pk name i img)
  ∧ ∀ k, k ≠ img_key conv d i → k ≠ txt_key conv d i → bucket w' !! k = bucket w !! k.
Proof.
  rewrite process_page_run. cbn zeta.
  destruct (gcs_put_and_sign env (img_key conv d i) _ _ _ w) as [[u|e] w1] eqn:E1; [|done].
  apply gcs_put_and_sign_bucket in E1 as [_ B1]; [|apply page_meta_nonempty].
  specialize (B1 eq_refl).
  unfold ocr_or_empty.
  destruct (ocr_image_to_text env img w1) as [r2 w2] eqn:E2.
  apply ocr_image_to_text_bucket in E2.
  assert (∃ t w2', (match r2 with
                    | Ok t => (t, w2)
                    | Raise e => ("", extend w2 (logged env (LogOcrWarn i e)))
                    end) = (t, w2') ∧ bucket w2' = bucket w1) as (t & w2' & -> & B2).
  { destruct r2; eauto. }
  destruct (gcs_put_and_sign env (txt_key conv d i) _ _ _ w2') as [r3 w3] eqn:E3.
  apply gcs_put_and_sign_bucket in E3 as [B3 _]; [|apply text_meta_nonempty].
  assert (Hw : ∀ w3', bucket w3' = bucket w3 →
    bucket w3' !! img_key conv d i = Some (page_blob env conv d pk name i img)
    ∧ ∀ k, k ≠ img_key conv d i → k ≠ txt_key conv d i → bucket w3' !! k = bucket w !! k).
  { intros w3' ->. destruct B3 as [-> | ->]; rewrite B2, B1; split.
    - by rewrite lookup_insert_eq.
    - intros k H1 H2. by rewrite lookup_insert_ne.
    - rewrite lookup_insert_ne by (intros E; symmetry in E; by apply img_key_not_txt_key in E).
      by rewrite lookup_insert_eq.
    - intros k H1 H2. by rewrite !lookup_insert_ne. }
  destruct r3 as [u3|e3]; intros [= <-]; by apply Hw.
Qed.

Lemma process_pages_bucket (pages : list Image) (i : nat) (w w' : World) :
  process_pages env conv d pk name i pages w = (Ok tt, w') →
  (∀ j img, pages !! j = Some img →
     bucket w' !! img_key conv d (i + j) = Some (page_blob env conv d pk name (i + j) img))
  ∧ ∀ k, (∀ j, (i ≤ j)%nat → k ≠ img_key conv d j ∧ k ≠ txt_key conv d j) →
         bucket w' !! k = bucket w !! k.
Proof.
  revert i w. induction pages as [|img pages IH]; intros i w; cbn [process_pages].
  - intros [= <-]. split; [|done]. intros j img' Hj. by rewrite lookup_nil in Hj.
  - unfold mbind at 1, M_bind at 1.
    destruct (process_page env conv d pk name i img w) as [[[]|e] w1] eqn:E1; [|done].
    apply process_page_bucket in E1 as [B1 F1]. intros E2.
    apply IH in E2 as [B2 F2]. split.
    + intros [|j] img' Hj; cbn in Hj.
      * injection Hj as <-. rewrite Nat.add_0_r. rewrite F2; [done|].
        intros j' Hj'. split.
        -- intros E. apply img_key_inj in E. lia.
        -- apply img_key_not_txt_key.
      * rewrite Nat.add_succ_r. by apply (B2 j).
    + intros k Hk. rewrite F2 by (intros j Hj; apply Hk; lia).
      apply F1; apply Hk; lia.
Qed.

End Bucket.

Lemma process_pdf_to_gcs_bucket (env : Env) (conversation_id path name : string)
    (w w' : World) (res : IngestResult) :
  let conv := str_or conversation_id "no-conv" in
  let d := doc_id_at env w in
  process_pdf_to_gcs env conversation_id path name w = (Ok res, w') →
  ∃ raw uploaded_at pages,
    files w !! path = Some raw
    ∧ res = {| res_conversation_id := conv; res_doc_id := d;
               res_pdf_key := pdf_key conv d; res_pages_count := length pages |}
    ∧ bucket w' !! pdf_key conv d
      = Some (stored_blob raw "application/pdf" (pdf_meta conv d name uploaded_at))
    ∧ (∀ j img, pages !! j = Some img →
         bucket w' !! img_key conv d (1 + j)
         = Some (page_blob env conv d (pdf_key conv d) name (1 + j) img))
    ∧ ∀ k, k ≠ pdf_key conv d →
           (∀ j, k ≠ img_key conv d j ∧ k ≠ txt_key conv d j) →
           bucket w' !! k = bucket w !! k.
Proof.
  cbn zeta. rewrite process_pdf_to_gcs_read. cbn zeta.
  rewrite read_file_run. cbn [fst].
  set (conv := str_or conversation_id "no-conv"). set (d := doc_id_at env w).
  destruct (open_fault env (history (at_open env w)) path) as [e|]; [done|].
  cbn [at_open extend files].
  destruct (files w !! path) as [raw|] eqn:Hraw; [|done].
  destruct raw as [|b raw]; [done|]. set (raw' := b :: raw) in *.
  unfold mbind at 1, M_bind at 1. rewrite _log_run.
  unfold mbind at 1, M_bind at 1. rewrite _now_iso_run.
  unfold mbind at 1, M_bind at 1.
  match goal with |- context [gcs_put_and_sign env ?k ?dt ?ct (Some ?m) ?w0] =>
    destruct (gcs_put_and_sign env k dt ct (Some m) w0) as [[u|e] w2] eqn:E2; [|done];
    apply gcs_put_and_sign_bucket in E2 as [_ B2]; [|apply pdf_meta_nonempty]
  end.
  specialize (B2 eq_refl). cbn [bucket extend] in B2.
  unfold mbind at 1, M_bind at 1. rewrite pil_images_from_pdf_bytes_run.
  destruct (convert_from_bytes env (history w2) raw' 400) as [pages|e]; [|done].
  unfold mbind at 1, M_bind at 1. rewrite _log_run.
  unfold mbind at 1, M_bind at 1.
  match goal with |- context [process_pages env conv d ?pk name 1 pages ?w0] =>
    destruct (process_pages env conv d pk name 1 pages w0) as [[[]|e] w3] eqn:E3; [|done];
    apply process_pages_bucket in E3 as [B3 F3]
  end.
  cbn [bucket extend] in F3. intros [= <- <-].
  eexists raw', _, pages. split_and!; [done|done| |done|].
  - rewrite F3, B2; [by rewrite lookup_insert_eq|].
    intros j _. split; [apply pdf_key_not_img_key|apply pdf_key_not_txt_key].
  - intros k Hk Hp. rewrite F3 by (intros j _; apply Hp).
    rewrite B2. by rewrite lookup_insert_ne.
Qed.

Lemma img_key_truthy (conv d : string) (i : nat) : str_truthy (img_key conv d i) = true.
Proof. done. Qed.

(** X6. Round trip from ingestion to enrichment.  After an ingestion that
    returns, the bucket holds, under the image key of every page i from 1 to
    the page count, a PNG object whose metadata is that of page i; and in any
    world with that bucket, resolving this key as the enrichment does, with
    no fault of the store, gives the record with the key, the original file
    name and the page number i. *)
Theorem ingested_page_resolves (env : Env) (conversation_id path name : string)
    (w w' : World) (res : IngestResult) (i : nat) :
  process_pdf_to_gcs env conversation_id path name w = (Ok res, w') →
  (1 ≤ i ≤ res_pages_count res)%nat →
  ∃ b,
    bucket w' !! img_key (res_conversation_id res) (res_doc_id res) i = Some b
    ∧ blob_content_type b = "image/png"
    ∧ blob_metadata b
      = Some (page_meta (res_conversation_id res) (res_doc_id res) (res_pdf_key res) name i)
    ∧ ∀ w'' acc,
        bucket w'' = bucket w' →
        reload_fault env (history w'')
          (img_key (res_conversation_id res) (res_doc_id res) i) = None →
        (fetch_page_info env
           [JStr (img_key (res_conversation_id res) (res_doc_id res) i)] acc w'').1
        = Ok (acc ++ [JDict {[ "page_key" :=
                                 JStr (img_key (res_conversation_id res) (res_doc_id res) i);
                               "pdf_name" := JStr name;
                               "page_number" := JStr (str_of_nat i) ]}]).
Proof.
  intros H Hi.
  apply process_pdf_to_gcs_bucket in H as (raw & t & pages & _ & -> & _ & Hpages & _).
  cbn [res_conversation_id res_doc_id res_pdf_key res_pages_count] in *.
  set (conv := str_or conversation_id "no-conv") in *. set (d := doc_id_at env w) in *.
  destruct (lookup_lt_is_Some_2 pages (i - 1)) as [img Himg]; [lia|].
  specialize (Hpages (i - 1)%nat img Himg).
  replace (1 + (i - 1))%nat with i in Hpages by lia.
  eexists. split_and!; [exact Hpages|done|done|].
  intros w'' acc Hb Hf. rewrite fetch_page_info_cons.
  cbn [page_key_of]. rewrite img_key_truthy.
  unfold try_except. unfold mbind at 1, M_bind at 1. rewrite blob_reload_run.
  unfold reload_outcome. rewrite Hf, Hb, Hpages.
  unfold mret at 1, M_ret at 1. cbn [fetch_page_info]. unfold mret, M_ret. cbn [fst].
  by f_equal.
Qed.

Lemma ingested_page_resolves_witness :
  ∃ b,
    bucket demo_ingest.2 !! img_key (res_conversation_id demo_result) (res_doc_id demo_result) 2
    = Some b
    ∧ blob_content_type b = "image/png"
    ∧ blob_metadata b
      = Some (page_meta (res_conversation_id demo_result) (res_doc_id demo_result)
                (res_pdf_key demo_result) "report.pdf" 2)
    ∧ ∀ w'' acc,
        bucket w'' = bucket demo_ingest.2 →
        reload_fault (demo_env None (Raise (LibError "unused")) None) (history w'')
          (img_key (res_conversation_id demo_result) (res_doc_id demo_result) 2) = None →
        (fetch_page_info (demo_env None (Raise (LibError "unused")) None)
           [JStr (img_key (res_conversation_id demo_result) (res_doc_id demo_result) 2)]
           acc w'').1
        = Ok (acc ++ [JDict {[ "page_key" :=
                                 JStr (img_key (res_conversation_id demo_result)
                                         (res_doc_id demo_result) 2);
                               "pdf_name" := JStr "report.pdf";
                               "page_number" := JStr (str_of_nat 2) ]}]).
Proof.
  pose proof demo_ingest_run as H. unfold demo_ingest at 1 in H.
  refine (ingested_page_resolves _ _ _ _ _ _ _ 2 H _). cbn. lia.
Defined.

(** X7. An ingestion that returns has stored the original document under
    its document key, with content type application/pdf and the bytes it read;
    and it has left every object of the bucket that is not an artifact key of
    this document exactly as it was. *)
Theorem ingestion_touches_only_its_keys (env : Env) (conversation_id path name : string)
    (w w' : World) (res : IngestResult) :
  process_pdf_to_gcs env conversation_id path name w = (Ok res, w') →
  (∃ raw b, files w !! path = Some raw
            ∧ bucket w' !! res_pdf_key res = Some b
            ∧ blob_data b = raw ∧ blob_content_type b = "application/pdf"
            ∧ ∃ m, blob_metadata b = Some m ∧ m !! "original_filename" = Some name)
  ∧ ∀ k, (∀ kind n, k ≠ artifact_key kind (res_conversation_id res) (res_doc_id res) n) →
         bucket w' !! k = bucket w !! k.
Proof.
  intros H.
  apply process_pdf_to_gcs_bucket in H as (raw & t & pages & Hf & -> & Hpdf & _ & Hframe).
  cbn [res_conversation_id res_doc_id res_pdf_key res_pages_count] in *. split.
  - eexists raw, _. split_and!; [done|exact Hpdf|done|done|].
    eexists. split; [done|]. unfold pdf_meta. by simplify_map_eq.
  - intros k Hk. apply Hframe.
    + exact (Hk KPdf 0%nat).
    + intros j. split; [exact (Hk KPageImage j)|exact (Hk KPageText j)].
Qed.

Lemma ingestion_touches_only_its_keys_witness :
  (∃ raw b, files demo_world !! "/tmp/upload.pdf" = Some raw
            ∧ bucket demo_ingest.2 !! res_pdf_key demo_result = Some b
            ∧ blob_data b = raw ∧ blob_content_type b = "application/pdf"
            ∧ ∃ m, blob_metadata b = Some m ∧ m !! "original_filename" = Some "report.pdf")
  ∧ ∀ k, (∀ kind n, k ≠ artifact_key kind (res_conversation_id demo_result)
                          (res_doc_id demo_result) n) →
         bucket demo_ingest.2 !! k = bucket demo_world !! k.
Proof.
  pose proof demo_ingest_run as H. unfold demo_ingest at 1 in H.
  exact (ingestion_touches_only_its_keys _ _ _ _ _ _ _ H).
Defined.

(** ** Other failures of ingestion *)

(** X8. When the uploaded file cannot be read (the read raises, or the file
    is not there), [process_pdf_to_gcs] raises [HTTPException] 400 whose
    detail is "Could not read file: " followed by the cause; nothing has been
    uploaded and the bucket is as it was. *)
Theorem unreadable_document_rejected (env : Env) (conversation_id path name : string)
    (w : World) (cause : Exn) :
  (read_file env path (at_open env w)).1 = Raise cause →
  ∃ w',
    process_pdf_to_gcs env conversation_id path name w
    = (Raise (HTTPException 400 ("Could not read file: " +:+ exn_str cause)), w')
    ∧ bucket w' = bucket w
    ∧ ∃ evs, history w' = history w ++ evs ∧ uploads evs = [].
Proof.
  intros H. rewrite process_pdf_to_gcs_read. cbn zeta. rewrite H.
  eexists. split_and!; [done|done|]. by eexists.
Qed.

Lemma unreadable_document_rejected_witness :
  ∃ w',
    process_pdf_to_gcs answering_env "c1" "/tmp/upload.pdf" "report.pdf" no_file_world
    = (Raise (HTTPException 400
                ("Could not read file: "
                 +:+ exn_str (LibError "[Errno 2] No such file or directory: /tmp/upload.pdf"))),
       w')
    ∧ bucket w' = bucket no_file_world
    ∧ ∃ evs, history w' = history no_file_world ++ evs ∧ uploads evs = [].
Proof.
  apply unreadable_document_rejected. vm_compute. reflexivity.
Defined.

Lemma gcs_put_and_sign_required_bucket (env : Env) (k : Kind) (conv d : string) (n : nat)
    (data : list byte) (ct : string) (meta : gmap string string) (w : World) :
  only_text_may_fail env → k ≠ KPageText → meta ≠ ∅ →
  ∃ u w' evs,
    gcs_put_and_sign env (artifact_key k conv d n) data ct (Some meta) w = (Ok u, w')
    ∧ grows w w' evs
    ∧ uploads evs = [{| up_key := artifact_key k conv d n; up_data := data;
                        up_content_type := ct; up_metadata := Some meta;
                        up_fault := None |}]
    ∧ bucket w' = <[artifact_key k conv d n := stored_blob data ct meta]> (bucket w).
Proof.
  intros Henv Hk Hm.
  destruct (gcs_put_and_sign_required env k conv d n data ct meta w Henv Hk Hm)
    as (u & w' & H).
  exists u, w'.
  destruct (gcs_put_and_sign_spec env _ _ _ _ _ _ _ Hm H) as (evs & f & G & U & F & _).
  destruct (gcs_put_and_sign_bucket env _ _ _ _ _ _ _ Hm H) as [_ B].
  exists evs. rewrite F in U by done. split_and!; [done|done|done|by apply B].
Qed.

(** X9. When the renderer rejects the document (and the store takes the
    required uploads), ingestion raises the renderer's own exception, not an
    [HTTPException]; by then the original document has been uploaded, it is
    the only upload made, and it stays in the bucket. *)
Theorem render_failure_after_document_upload (env : Env)
    (conversation_id path name : string) (w : World) (raw : list byte) (cause : Exn) :
  only_text_may_fail env →
  open_fault env (history (at_open env w)) path = None →
  files w !! path = Some raw → raw ≠ [] →
  (∀ h, convert_from_bytes env h raw 400 = Raise cause) →
  ∃ w' evs b,
    process_pdf_to_gcs env conversation_id path name w = (Raise cause, w')
    ∧ history w' = history w ++ evs
    ∧ up_key <$> uploads evs = [pdf_key (str_or conversation_id "no-conv") (doc_id_at env w)]
    ∧ bucket w' !! pdf_key (str_or conversation_id "no-conv") (doc_id_at env w) = Some b
    ∧ blob_data b = raw.
Proof.
  intros Henv Hopen Hfile Hraw Hrender. rewrite process_pdf_to_gcs_read. cbn zeta.
  rewrite read_file_run, Hopen. cbn [fst at_open extend files]. rewrite Hfile.
  destruct raw as [|b0 raw]; [done|].
  unfold mbind at 1, M_bind at 1. rewrite _log_run.
  unfold mbind at 1, M_bind at 1. rewrite _now_iso_run.
  unfold mbind at 1, M_bind at 1.
  match goal with |- context [gcs_put_and_sign env ?k ?dt ?ct (Some ?m) ?w0] =>
    destruct (gcs_put_and_sign_required_bucket env KPdf (str_or conversation_id "no-conv")
                (doc_id_at env w) 0 dt ct m w0 Henv)
      as (u & w2 & evs2 & E & [G2 _] & U2 & B2);
      [done|apply pdf_meta_nonempty|]; cbn [artifact_key] in E, U2, B2; rewrite E
  end.
  unfold mbind at 1, M_bind at 1. rewrite pil_images_from_pdf_bytes_run, Hrender.
  eexists _, ([EvUuid (uuid4 env (history w)); EvOpen path]
              ++ logged env (LogPdfRead name (length (b0 :: raw))
                               (str_or conversation_id "no-conv") (doc_id_at env w))
              ++ evs2 ++ [EvRender (Raise cause)]), _.
  split_and!; [done| | | |].
  - cbn [history extend]. rewrite G2. cbn [history extend]. by rewrite !app_assoc.
  - rewrite !uploads_app, uploads_logged, U2. done.
  - cbn [bucket extend]. rewrite B2. by rewrite lookup_insert_eq.
  - done.
Qed.

Lemma render_failure_after_document_upload_witness :
  ∃ w' evs b,
    process_pdf_to_gcs unrenderable_env "c1" "/tmp/upload.pdf" "report.pdf" demo_world
    = (Raise (LibError "Unable to get page count."), w')
    ∧ history w' = history demo_world ++ evs
    ∧ up_key <$> uploads evs = [pdf_key (str_or "c1" "no-conv")
                                  (doc_id_at unrenderable_env demo_world)]
    ∧ bucket w' !! pdf_key (str_or "c1" "no-conv") (doc_id_at unrenderable_env demo_world)
      = Some b
    ∧ blob_data b = ["%"%byte; "P"%byte; "D"%byte; "F"%byte].
Proof.
  apply render_failure_after_document_upload; try done.
  split; intros h k; by left.
Defined.

(** ** The gateway is not atomic *)

(** X10. [gcs_put_and_sign] uploads first and signs afterwards: when the
    store takes the object and the signing then fails, the call raises the
    signing error, yet the object is in the bucket with its content type and
    metadata, and no success line is logged. *)
Theorem upload_survives_signing_failure (env : Env) (key : string) (data : list byte)
    (ct : string) (meta : gmap string string) (w : World) (e : Exn) :
  meta ≠ ∅ →
  upload_fault env (history w) key = None →
  signed_url env (history w ++ [EvUpload key data ct (Some meta) None]) key
    (SIGNED_URL_TTL_MIN env) = Raise e →
  ∃ w',
    gcs_put_and_sign env key data ct (Some meta) w = (Raise e, w')
    ∧ bucket w' !! key = Some (stored_blob data ct meta)
    ∧ history w'
      = history w ++ [EvUpload key data ct (Some meta) None; EvSign key (Raise e)].
Proof.
  intros Hm Hup Hsign. unfold gcs_put_and_sign. rewrite bool_decide_eq_false_2 by done.
  unfold upload_from_string, generate_signed_url.
  unfold mbind at 1 2 3 4 5 6 7, M_bind at 1 2 3 4 5 6 7. unfold_monad. cbn.
  rewrite Hup. cbn. rewrite Hsign. cbn.
  eexists. split_and!; [done| |].
  - cbn. by rewrite lookup_insert_eq.
  - cbn. by rewrite <- app_assoc.
Qed.

Lemma upload_survives_signing_failure_witness :
  ∃ w',
    gcs_put_and_sign answering_env "pages/c1/d1/page_2.png" [] "image/png"
      (Some (page_meta "c1" "d1" "pdfs/c1/d1.pdf" "report.pdf" 2)) demo_world
    = (Raise (LibError "no signing key"), w')
    ∧ bucket w' !! "pages/c1/d1/page_2.png"
      = Some (stored_blob [] "image/png" (page_meta "c1" "d1" "pdfs/c1/d1.pdf" "report.pdf" 2))
    ∧ history w'
      = history demo_world
        ++ [EvUpload "pages/c1/d1/page_2.png" [] "image/png"
              (Some (page_meta "c1" "d1" "pdfs/c1/d1.pdf" "report.pdf" 2)) None;
            EvSign "pages/c1/d1/page_2.png" (Raise (LibError "no signing key"))].
Proof.
  apply upload_survives_signing_failure.
  - apply page_meta_nonempty.
  - reflexivity.
  - reflexivity.
Defined.

(** ** The enrichment only reads *)

Lemma sign_pages_reads (env : Env) (ks acc : list JVal) (w : World) :
  ∃ r evs, sign_pages env ks acc w = (r, extend w evs) ∧ uploads evs = [].
Proof.
  revert acc w. induction ks as [|k ks IH]; intros acc w.
  - exists (Ok acc), []. by rewrite extend_nil.
  - rewrite sign_pages_cons. unfold try_except.
    destruct (page_key_of k) as [key|].
    + unfold mbind at 1, M_bind at 1. rewrite gcs_sign_only_run.
      destruct (signed_url env (history w) key (SIGNED_URL_TTL_MIN env)) as [u|e].
      * unfold mret at 1, M_ret at 1.
        destruct (IH (acc ++ [JStr u]) (extend w [EvSign key (Ok u)])) as (r & evs & -> & U).
        eexists r, (_ :: evs). by rewrite extend_extend.
      * unfold mbind at 1, M_bind at 1. rewrite _log_run. unfold mret at 1, M_ret at 1.
        destruct (IH acc (extend (extend w [EvSign key (Raise e)])
                            (logged env (LogSignWarn k e)))) as (r & evs & -> & U).
        eexists r, ([_] ++ logged env _ ++ evs). rewrite !extend_extend, <- ?app_assoc.
        split; [done|]. by rewrite !uploads_app, uploads_logged, U.
    + unfold mret at 1, M_ret at 1. apply IH.
Qed.

Lemma fetch_page_info_reads (env : Env) (ks acc : list JVal) (w : World) :
  ∃ r evs, fetch_page_info env ks acc w = (r, extend w evs) ∧ uploads evs = [].
Proof.
  revert acc w. induction ks as [|k ks IH]; intros acc w.
  - exists (Ok acc), []. by rewrite extend_nil.
  - rewrite fetch_page_info_cons. unfold try_except.
    destruct (page_key_of k) as [key|].
    + unfold mbind at 1, M_bind at 1. rewrite blob_reload_run.
      destruct (reload_outcome env w key) as [m|e].
      * unfold mret at 1, M_ret at 1.
        destruct (IH (acc ++ [page_info key m]) (extend w [EvReload key (Ok m)]))
          as (r & evs & -> & U).
        eexists r, (_ :: evs). by rewrite extend_extend.
      * unfold mbind at 1, M_bind at 1. rewrite _log_run. unfold mret at 1, M_ret at 1.
        destruct (IH acc (extend (extend w [EvReload key (Raise e)])
                            (logged env (LogMetaWarn k e)))) as (r & evs & -> & U).
        eexists r, ([_] ++ logged env _ ++ evs). rewrite !extend_extend, <- ?app_assoc.
        split; [done|]. by rewrite !uploads_app, uploads_logged, U.
    + unfold mret at 1, M_ret at 1. apply IH.
Qed.

(** The post-processing always returns, whatever the body is, and only
    adds read requests and log lines to the history. *)
Lemma attach_pages_reads (env : Env) (body : JVal) (w : World) :
  ∃ body' evs, attach_pages env body w = (Ok body', extend w evs) ∧ uploads evs = [].
Proof.
  unfold attach_pages, try_except.
  destruct body as [| | | | |d];
    try (unfold raise, mbind, M_bind, mret, M_ret; rewrite _log_run;
         eexists _, _; split; [done|apply uploads_logged]).
  set (pages_used := match d !! "pages_used" with
                     | Some v => if truthy v then v else JList []
                     | None => JList []
                     end).
  destruct pages_used as [| | | |ks|];
    try (eexists _, []; by rewrite extend_nil).
  destruct (sign_pages_spec env ks [] w) as (evs1 & S1 & _).
  destruct (sign_pages_reads env ks [] w) as (r1 & evs1' & S1' & U1).
  rewrite S1 in S1'. injection S1' as _ W1. apply app_inv_head in W1 as <-.
  destruct (fetch_page_info_spec env ks [] (extend w evs1)) as (evs2 & S2 & _).
  destruct (fetch_page_info_reads env ks [] (extend w evs1)) as (r2 & evs2' & S2' & U2).
  rewrite S2 in S2'. injection S2' as _ W2. apply app_inv_head in W2 as <-.
  unfold mbind at 1, M_bind at 1. rewrite S1.
  unfold mbind at 1, M_bind at 1. rewrite S2.
  eexists _, (evs1 ++ evs2). rewrite extend_extend. split; [done|].
  by rewrite uploads_app, U1, U2.
Qed.

Lemma call_gpu_backend_reads (env : Env) (conversation_id human : string)
    (doc_id : option string) (w : World) :
  ∃ evs, (call_gpu_backend env conversation_id human doc_id w).2 = extend w evs
         ∧ uploads evs = [].
Proof.
  unfold call_gpu_backend. destruct (url_configured (GPU_BACKEND_URL env)); cbn [negb].
    2:{ exists []. by rewrite extend_nil. }
    unfold mbind at 1, M_bind at 1. rewrite _log_run. unfold try_except.
    unfold mbind at 1, M_bind at 1. rewrite post_run.
    match goal with |- context [requests_post env ?h ?u ?p ?hd ?t] =>
      destruct (requests_post env h u p hd t) as [resp|e] end.
    2:{ cbn. eexists (logged env _ ++ [_]). rewrite extend_extend.
        split; [done|]. by rewrite uploads_app, uploads_logged. }
    unfold mbind at 1, M_bind at 1.
    destruct (raise_for_status resp) as [e|].
    { cbn. eexists (logged env _ ++ [_]). rewrite extend_extend.
      split; [done|]. by rewrite uploads_app, uploads_logged. }
    unfold mret at 1, M_ret at 1. unfold mbind at 1, M_bind at 1, lift at 1.
    destruct (json resp) as [body|e].
    2:{ cbn. eexists (logged env _ ++ [_]). rewrite extend_extend.
        split; [done|]. by rewrite uploads_app, uploads_logged. }
    unfold mbind at 1, M_bind at 1.
    match goal with |- context [attach_pages env body ?w0] =>
      destruct (attach_pages_reads env body w0) as (body' & evs & -> & U) end.
    unfold mbind at 1, M_bind at 1. rewrite _log_run. unfold mret, M_ret. cbn [snd].
    eexists (logged env _ ++ [_] ++ evs ++ logged env _).
    rewrite !extend_extend, <- ?app_assoc. split; [done|].
    by rewrite !uploads_app, !uploads_logged, U.
Qed.

(** X11. [call_gpu_backend] only reads: whatever the configuration, the
    downstream reply and the store's answers, it uploads nothing, and the
    bucket and the local files are after the call what they were before. *)
Theorem enrichment_never_writes (env : Env) (conversation_id human : string)
    (doc_id : option string) (w : World) :
  ∃ evs,
    (call_gpu_backend env conversation_id human doc_id w).2 = extend w evs
    ∧ uploads evs = []
    ∧ bucket (call_gpu_backend env conversation_id human doc_id w).2 = bucket w
    ∧ files (call_gpu_backend env conversation_id human doc_id w).2 = files w.
Proof.
  destruct (call_gpu_backend_reads env conversation_id human doc_id w) as (evs & E & U).
  exists evs. by rewrite E.
Qed.

(** ** Bodies the post-processing does not enrich *)

(** X12. The post-processing of [pages_used] never fails and handles the
    odd bodies as follows.  A body that is not a dictionary is returned as it
    is, after one warning.  A dictionary whose [pages_used] is a truthy value
    other than a list is returned as it is, with no field added.  A dictionary
    with no [pages_used], or with a falsy one (null, 0, "", an empty list),
    gets both fields set to the empty list, with no request to the store. *)
Theorem attach_pages_odd_bodies (env : Env) (w : World) :
  (∀ body, (∀ d, body ≠ JDict d) →
     attach_pages env body w
     = (Ok body,
        extend w (logged env (LogPostProcessWarn
                    (LibError ("'" +:+ py_type_name body
                               +:+ "' object has no attribute 'get'"))))))
  ∧ (∀ d v, d !! "pages_used" = Some v → truthy v = true → (∀ ks, v ≠ JList ks) →
       attach_pages env (JDict d) w = (Ok (JDict d), w))
  ∧ (∀ d, (d !! "pages_used" = None
           ∨ ∃ v, d !! "pages_used" = Some v ∧ truthy v = false) →
       attach_pages env (JDict d) w
       = (Ok (JDict (<["page_info" := JList []]> (<["page_image_urls" := JList []]> d))), w)).
Proof.
  split_and!.
  - intros body Hb. unfold attach_pages, try_except.
    destruct body as [| | | | |d]; try (by destruct (Hb d));
      unfold raise, mbind, M_bind, mret, M_ret; by rewrite _log_run.
  - intros d v Hd Hv Hl. unfold attach_pages, try_except. rewrite Hd, Hv.
    destruct v as [| | | |ks|]; try done. by destruct (Hl ks).
  - intros d Hd. unfold attach_pages, try_except.
    assert (match d !! "pages_used" with
            | Some v => if truthy v then v else JList []
            | None => JList []
            end = JList []) as ->.
    { destruct Hd as [-> | (v & -> & ->)]; done. }
    done.
Qed.

Lemma attach_pages_odd_bodies_witness :
  (∀ d : gmap string JVal, JList [JNum 1] ≠ JDict d)
  ∧ attach_pages answering_env (JList [JNum 1]) stocked_world
    = (Ok (JList [JNum 1]),
       extend stocked_world
         (logged answering_env
            (LogPostProcessWarn
               (LibError ("'" +:+ py_type_name (JList [JNum 1])
                          +:+ "' object has no attribute 'get'"))))).
Proof.
  assert (H : ∀ d : gmap string JVal, JList [JNum 1] ≠ JDict d) by done.
  split; [exact H|].
  exact (proj1 (attach_pages_odd_bodies answering_env stocked_world) (JList [JNum 1]) H).
Defined.

(** ** A reply that is not JSON *)

(** X13. With an endpoint configured, a response with a success status
    whose body cannot be parsed as JSON makes [call_gpu_backend] raise
    [HTTPException] 502 carrying the parse error, like a transport failure. *)
Theorem unparsable_reply_is_bad_gateway (env : Env) (conversation_id human : string)
    (doc_id : option string) (w : World) (resp : Response) (e : Exn) :
  url_configured (GPU_BACKEND_URL env) = true →
  downstream_reply env conversation_id human doc_id w = Ok resp →
  raise_for_status resp = None →
  json resp = Raise e →
  (call_gpu_backend env conversation_id human doc_id w).1
  = Raise (HTTPException 502 ("GPU backend error: " +:+ exn_str e)).
Proof.
  intros Hc Hr Hs Hj. apply call_gpu_backend_failure; [done|]. right. eauto.
Qed.

Lemma unparsable_reply_is_bad_gateway_witness :
  (call_gpu_backend garbled_env "c1" "hello" None stocked_world).1
  = Raise (HTTPException 502
             ("GPU backend error: "
              +:+ exn_str (LibError "Expecting value: line 1 column 1 (char 0)"))).
Proof.
  apply (unparsable_reply_is_bad_gateway garbled_env "c1" "hello" None stocked_world
           garbled_response); reflexivity.
Defined.

(** ** The request URL *)

Lemma skip_while_app_all {A} (p : A → bool) (k l : list A) :
  Forall (λ x, p x = true) k → skip_while p (k ++ l) = skip_while p l.
Proof. induction 1 as [|x k Hx _ IH]; cbn; [done|]. by rewrite Hx. Qed.

Lemma rstrip_slashes (s : string) (m : nat) (s' : string) :
  chars s' = chars s ++ replicate m "/"%char →
  rstrip_by is_slash s' = rstrip_by is_slash s.
Proof.
  intros E. apply chars_inj. rewrite !chars_rstrip_by, E, rev_app_distr.
  rewrite skip_while_app_all; [done|].
  apply Forall_rev, Forall_replicate. done.
Qed.

(** X14. The request URL is the configured base without its trailing
    slashes followed by "/ingest-and-answer": the base is some [b] that does
    not end with a slash followed by slashes only, and the URL is
    [b ++ "/ingest-and-answer"]; hence a configuration that differs from
    another one by trailing slashes only gives the same URL. *)
Theorem gpu_url_ignores_trailing_slashes (env : Env) :
  (∃ b n,
     chars (default "" (GPU_BACKEND_URL env)) = chars b ++ replicate n "/"%char
     ∧ last (chars b) ≠ Some "/"%char
     ∧ gpu_url env = b +:+ "/ingest-and-answer")
  ∧ ∀ env' m,
      chars (default "" (GPU_BACKEND_URL env'))
      = chars (default "" (GPU_BACKEND_URL env)) ++ replicate m "/"%char →
      gpu_url env' = gpu_url env.
Proof.
  split.
  - unfold gpu_url. set (base := default "" (GPU_BACKEND_URL env)).
    exists (rstrip_by is_slash base).
    destruct (rev_skip_while_rev is_slash (chars base)) as (k & E & F & L).
    exists (length k). rewrite chars_rstrip_by. split_and!; [|by intros ?%L|done].
    rewrite E at 1. f_equal. clear E.
    induction F as [|c k Hc F IH]; [done|]. cbn. f_equal; [|done].
    unfold is_slash in Hc. by apply Ascii.eqb_eq in Hc.
  - intros env' m E. unfold gpu_url. by rewrite (rstrip_slashes _ m _ E).
Qed.

Lemma gpu_url_ignores_trailing_slashes_witness :
  gpu_url (demo_env (Some "http://gpu.internal:8000///") (Ok demo_response) None)
  = gpu_url (demo_env (Some "http://gpu.internal:8000") (Ok demo_response) None).
Proof.
  apply (proj2 (gpu_url_ignores_trailing_slashes
                  (demo_env (Some "http://gpu.internal:8000") (Ok demo_response) None))
           (demo_env (Some "http://gpu.internal:8000///") (Ok demo_response) None) 3%nat).
  reflexivity.
Defined.

(** ** The /chat route *)


Lemma remove_file_run (tmp_path : string) (w : World) :
  remove_file tmp_path w = (Ok tt, after_remove tmp_path w).
Proof. done. Qed.






(** ** The allowed origins *)

Lemma split_on_nonempty (sep : ascii) (s : string) : split_on sep s ≠ [].
Proof.
  destruct s as [|c s]; cbn; [done|].
  destruct (Ascii.eqb c sep); [done|]. by destruct (split_on sep s).
Qed.




Example cors_origins_example :
  cors_origins " https://app.example.com , ,http://localhost:5173"
  = ["https://app.example.com"; "http://localhost:5173"].
Proof. vm_compute. reflexivity. Qed.

(** ** Metadata of the page texts *)

Lemma text_upload_in_page_uploads (env : Env) (conv d pk name : string)
    (pages : list Image) (details : list (string * string * option Exn)) (a j : nat) :
  length details = length pages → (j < length pages)%nat →
  ∃ detail, text_upload env conv d pk name (a + j) detail
            ∈ page_uploads env conv d pk name a pages details.
Proof.
  revert details a j. induction pages as [|img pages IH]; intros [|dt details] a j L Hj;
    cbn in *; try lia.
  destruct j as [|j].
  - exists dt. rewrite Nat.add_0_r. set_solver.
  - destruct (IH details (S a) j) as (detail & Hin); [lia..|].
    exists detail. rewrite Nat.add_succ_r. set_solver.
Qed.

(** X18. In an ingestion that returns, every page i has a text upload under
    its text key whose metadata names the image it was read from
    ([source_image_key] is the image key of page i), the page number, the
    document and the OCR engine and language, and keeps every field of the
    page's own metadata unchanged. *)
Theorem page_text_traces_to_image (env : Env) (conversation_id path name : string)
    (w w' : World) (res : IngestResult) (i : nat) :
  process_pdf_to_gcs env conversation_id path name w = (Ok res, w') →
  (1 ≤ i ≤ res_pages_count res)%nat →
  ∃ evs up m,
    history w' = history w ++ evs
    ∧ up ∈ uploads evs
    ∧ up_key up = txt_key (res_conversation_id res) (res_doc_id res) i
    ∧ up_metadata up = Some m
    ∧ m !! "source_image_key"
      = Some (img_key (res_conversation_id res) (res_doc_id res) i)
    ∧ m !! "page_number" = Some (str_of_nat i)
    ∧ m !! "source_pdf_key" = Some (res_pdf_key res)
    ∧ m !! "ocr_engine" = Some "tesseract"
    ∧ m !! "ocr_lang" = Some (OCR_LANG env)
    ∧ m !! "ocr_version" = Some (TESS_VERSION env)
    ∧ page_meta (res_conversation_id res) (res_doc_id res) (res_pdf_key res) name i ⊆ m.
Proof.
  intros H Hi. apply process_pdf_to_gcs_spec in H as (evs & [Hh _] & _ & Hok & _).
  destruct (Hok res eq_refl) as (raw & t & pages & details & _ & _ & _ & -> & L & U).
  cbn [res_conversation_id res_doc_id res_pdf_key res_pages_count] in *.
  set (conv := str_or conversation_id "no-conv") in *. set (d := doc_id_at env w) in *.
  destruct (text_upload_in_page_uploads env conv d (pdf_key conv d) name pages details
              1 (i - 1)) as ([[txt at_] f] & Hin); [done|lia|].
  replace (1 + (i - 1))%nat with i in Hin by lia.
  eexists evs, _, _. split; [done|]. split; [rewrite U; right; exact Hin|].
  cbn [text_upload up_key up_metadata].
  split_and!; try done; try (unfold text_meta, page_meta; by simplify_map_eq).
  apply map_subseteq_spec. intros k v Hk. unfold text_meta.
  rewrite !lookup_insert_ne; [done|..]; intros <-; unfold page_meta in Hk;
    by simplify_map_eq.
Qed.

Lemma page_text_traces_to_image_witness :
  ∃ evs up m,
    history demo_ingest.2 = history demo_world ++ evs
    ∧ up ∈ uploads evs
    ∧ up_key up = txt_key (res_conversation_id demo_result) (res_doc_id demo_result) 1
    ∧ up_metadata up = Some m
    ∧ m !! "source_image_key"
      = Some (img_key (res_conversation_id demo_result) (res_doc_id demo_result) 1)
    ∧ m !! "page_number" = Some (str_of_nat 1)
    ∧ m !! "source_pdf_key" = Some (res_pdf_key demo_result)
    ∧ m !! "ocr_engine" = Some "tesseract"
    ∧ m !! "ocr_lang" = Some (OCR_LANG (demo_env None (Raise (LibError "unused")) None))
    ∧ m !! "ocr_version"
      = Some (TESS_VERSION (demo_env None (Raise (LibError "unused")) None))
    ∧ page_meta (res_conversation_id demo_result) (res_doc_id demo_result)
        (res_pdf_key demo_result) "report.pdf" 1 ⊆ m.
Proof.
  pose proof demo_ingest_run as H. unfold demo_ingest at 1 in H.
  refine (page_text_traces_to_image _ _ _ _ _ _ _ 1 H _). cbn. lia.
Defined.

(** ** Resolving one key *)

(** X19. Resolving the metadata of one non-empty key when the store raises
    no fault of its own.  If the object exists, a record is appended even when
    the object has no metadata: its [pdf_name] and [page_number] are then
    null (the entry is kept, not dropped).  If the object does not exist, the
    key is omitted and one warning is passed to [_log]. *)
Theorem fetch_one_page_info (env : Env) (key : string) (acc : list JVal) (w : World) :
  key ≠ "" →
  reload_fault env (history w) key = None →
  (∀ b, bucket w !! key = Some b →
     (fetch_page_info env [JStr key] acc w).1
     = Ok (acc ++ [JDict {[ "page_key" := JStr key;
                            "pdf_name" :=
                              jstr_opt (default ∅ (blob_metadata b) !! "original_filename");
                            "page_number" :=
                              jstr_opt (default ∅ (blob_metadata b) !! "page_number") ]}])
     ∧ (blob_metadata b = None →
        (fetch_page_info env [JStr key] acc w).1
        = Ok (acc ++ [JDict {[ "page_key" := JStr key; "pdf_name" := JNull;
                               "page_number" := JNull ]}])))
  ∧ (bucket w !! key = None →
     fetch_page_info env [JStr key] acc w
     = (Ok acc,
        extend w ([EvReload key (Raise (LibError ("404 No such object: " +:+ key)))]
                  ++ logged env (LogMetaWarn (JStr key)
                                   (LibError ("404 No such object: " +:+ key)))))).
Proof.
  intros Hk Hf.
  assert (Hp : page_key_of (JStr key) = Some key) by (by destruct key).
  split.
  - intros b Hb.
    assert (E : (fetch_page_info env [JStr key] acc w).1
                = Ok (acc ++ [page_info key (blob_metadata b)])).
    { rewrite fetch_page_info_cons, Hp. unfold try_except.
      unfold mbind at 1, M_bind at 1. rewrite blob_reload_run.
      unfold reload_outcome. rewrite Hf, Hb. done. }
    split; [done|]. intros Hm. by rewrite E, Hm.
  - intros Hb. rewrite fetch_page_info_cons, Hp. unfold try_except.
    unfold mbind at 1, M_bind at 1. rewrite blob_reload_run.
    unfold reload_outcome. rewrite Hf, Hb.
    unfold mbind at 1, M_bind at 1. rewrite _log_run.
    unfold mret, M_ret. cbn [fetch_page_info]. by rewrite extend_extend.
Qed.

Lemma fetch_one_page_info_witness :
  (fetch_page_info answering_env [JStr "pages/c1/d1/page_7.png"] [] bare_world).1
  = Ok ([] ++ [JDict {[ "page_key" := JStr "pages/c1/d1/page_7.png"; "pdf_name" := JNull;
                        "page_number" := JNull ]}])
  ∧ fetch_page_info answering_env [JStr "pages/c1/d1/page_8.png"] [] bare_world
    = (Ok [],
       extend bare_world
         ([EvReload "pages/c1/d1/page_8.png"
             (Raise (LibError ("404 No such object: " +:+ "pages/c1/d1/page_8.png")))]
          ++ logged answering_env
               (LogMetaWarn (JStr "pages/c1/d1/page_8.png")
                  (LibError ("404 No such object: " +:+ "pages/c1/d1/page_8.png"))))).
Proof.
  split.
  - refine (proj2 (proj1 (fetch_one_page_info answering_env "pages/c1/d1/page_7.png" []
                            bare_world _ _)
                     {| blob_data := []; blob_content_type := "image/png";
                        blob_metadata := None |} _) _).
    + discriminate.
    + reflexivity.
    + vm_compute. reflexivity.
    + reflexivity.
  - refine (proj2 (fetch_one_page_info answering_env "pages/c1/d1/page_8.png" []
                     bare_world _ _) _).
    + discriminate.
    + reflexivity.
    + vm_compute. reflexivity.
Defined.

(** ** A store whose answers depend on the key only *)

(** X20. When what the signer answers depends on the key only, the list of
    signed URLs is the list of usable keys of [pages_used], each replaced by
    its URL, without the keys that cannot be signed: order is kept, and a key
    listed twice is signed twice and appears twice. *)
Theorem sign_pages_by_key (env : Env) (sign : string → Outcome string) (ks acc : list JVal)
    (w : World) :
  (∀ h key, signed_url env h key (SIGNED_URL_TTL_MIN env) = sign key) →
  (sign_pages env ks acc w).1
  = Ok (acc ++ (JStr <$> omap (λ key, ok_value (sign key)) (omap page_key_of ks))).
Proof.
  intros Hs. revert acc w. induction ks as [|k ks IH]; intros acc w.
  - cbn. by rewrite app_nil_r.
  - rewrite sign_pages_cons. unfold try_except. cbn [omap list_omap].
    destruct (page_key_of k) as [key|].
    + unfold mbind at 1, M_bind at 1. rewrite gcs_sign_only_run, Hs. cbn [omap list_omap].
      destruct (sign key) as [u|e]; cbn [ok_value].
      * unfold mret at 1, M_ret at 1. rewrite IH. cbn. by rewrite <- app_assoc.
      * unfold mbind at 1, M_bind at 1. rewrite _log_run. unfold mret at 1, M_ret at 1.
        by rewrite IH.
    + unfold mret at 1, M_ret at 1. by rewrite IH.
Qed.

Lemma sign_pages_by_key_witness :
  (sign_pages answering_env
     [JStr "pages/c1/d1/page_1.png"; JStr "pages/c1/d1/page_2.png";
      JStr "pages/c1/d1/page_1.png"] [] stocked_world).1
  = Ok ([] ++ (JStr <$> omap (λ key, ok_value
                                (if bool_decide (Some "pages/c1/d1/page_2.png" = Some key)
                                 then Raise (LibError "no signing key")
                                 else Ok ("https://storage.example/" +:+ key)))
                          (omap page_key_of
                             [JStr "pages/c1/d1/page_1.png"; JStr "pages/c1/d1/page_2.png";
                              JStr "pages/c1/d1/page_1.png"]))).
Proof.
  apply (sign_pages_by_key answering_env
           (λ key, if bool_decide (Some "pages/c1/d1/page_2.png" = Some key)
                   then Raise (LibError "no signing key")
                   else Ok ("https://storage.example/" +:+ key))).
  intros h key. reflexivity.
Defined.

Example sign_pages_twice :
  (sign_pages answering_env
     [JStr "pages/c1/d1/page_1.png"; JStr "pages/c1/d1/page_2.png";
      JStr "pages/c1/d1/page_1.png"] [] stocked_world).1
  = Ok [JStr "https://storage.example/pages/c1/d1/page_1.png";
        JStr "https://storage.example/pages/c1/d1/page_1.png"].
Proof. vm_compute. reflexivity. Qed.
